(** * VoipAnalysis: traffic engineering and call simulation, embedded in Rocq

    Sources: [src/app.js] (randomised traffic matrix, [erlangB],
    [calculateTrafficData]), [src/unnamed/part_001] (equal-split variant of
    the same calculator) and [src/callsim.js] (the call simulator).

    JavaScript numbers are modelled by exact rationals [Q].  The only places
    where a division by zero can arise in the modelled code (the utilisation
    [currentActiveCalls / maxCalls] of the simulator) are modelled with an
    explicit IEEE-like result ([jsnum]) so that Infinity and NaN behave as
    in JavaScript. *)

From stdpp Require Import base gmap strings list fin_maps pretty.
From Stdlib Require Import QArith Qround Qabs Lqa Lia.
From Stdlib Require Strings.String.

Open Scope Q_scope.

(* ------------------------------------------------------------------ *)
(** ** Erlang-B dimensioning ([erlangB] in app.js and part_001) *)
(* ------------------------------------------------------------------ *)

Definition Qnat (n : nat) : Q := inject_Z (Z.of_nat n).

(** The loop [for (let m = 1; m <= 10000; m++)]: [B] is the running
    blocking probability, [fuel] the number of iterations left. *)
Fixpoint erlangB_loop (erlangs blockingProb B : Q) (m fuel : nat) : nat :=
  match fuel with
  | O => 10000%nat
  | S fuel' =>
      let B' := (erlangs * B) / (Qnat m + erlangs * B) in
      if Qle_bool B' blockingProb then m
      else erlangB_loop erlangs blockingProb B' (S m) fuel'
  end.

(** [function erlangB(erlangs, blockingProb)] *)
Definition erlangB (erlangs blockingProb : Q) : nat :=
  if Qeq_bool erlangs 0 then 0%nat
  else erlangB_loop erlangs blockingProb 1 1 10000.

(** The recurrence of the spec: [B(E,0) = 1],
    [B(E,m) = E*B(E,m-1) / (m + E*B(E,m-1))]. *)
Fixpoint erlangB_rec (E : Q) (m : nat) : Q :=
  match m with
  | O => 1
  | S k => let b := erlangB_rec E k in (E * b) / (Qnat (S k) + E * b)
  end.

(* ------------------------------------------------------------------ *)
(** ** Traffic model ([generateTrafficMatrix], [calculateTrafficData]) *)
(* ------------------------------------------------------------------ *)

Definition LOCATIONS : list string := ["US"; "China"; "UK"].

(** Total outgoing traffic for each location (minutes per day). *)
Definition TOTAL_TRAFFIC : gmap string Q :=
  <["US" := 12822]> (<["China" := 28286]> (<["UK" := 28000]> ∅)).

Definition CODEC_BANDWIDTHS : gmap string Q :=
  <["g711" := 64]> (<["g729a" := 8]> ∅).

Definition T1_BANDWIDTH : Q := 1544 # 1000.
Definition T1_CHANNELS : Q := 24.
(** [(40 * 8 * 50) / 1000] *)
Definition HEADER_BANDWIDTH : Q := (40 * 8 * 50) / 1000.

(** [TOTAL_TRAFFIC[location]]; the code only reads it at the keys of
    [LOCATIONS], which are all present. *)
Definition total_of (location : string) : Q :=
  match TOTAL_TRAFFIC !! location with Some t => t | None => 0 end.

(** [trafficMatrix[i][j]] on the 3x3 matrix. *)
Definition matrix_get (trafficMatrix : list (list Q)) (i j : nat) : Q :=
  nth j (nth i trafficMatrix []) 0.

(** The mode-specific fields of a link record. [CODEC_BANDWIDTHS[codec]]
    is [undefined] for an unknown codec; the arithmetic on it then gives
    [NaN]; both are [None] here. *)
Inductive LinkExtra :=
| PstnExtra (requiredCircuits : nat) (t1Count : Z) (bandwidthMbps : Q)
| VoipExtra (codec : string) (codecBandwidth : option Q) (headerBandwidth : Q)
            (totalBandwidthPerCall : option Q) (totalBandwidthMbps : option Q).

Record LinkData := {
  from : string;
  to : string;
  dailyMinutes : Q;
  busyHourErlangs : Q;
  extra : LinkExtra
}.

(** The body of the inner loop of [calculateTrafficData] for one kept
    pair [(i, j)]: the object pushed on [results]. *)
Definition linkData_of (networkType codec : string) (blockingProb : Q)
    (i j : nat) (dailyMinutes : Q) : LinkData :=
  let busyHourErlangs := dailyMinutes * (17 # 100) / 60 in
  {| from := nth i LOCATIONS "";
     to := nth j LOCATIONS "";
     dailyMinutes := dailyMinutes;
     busyHourErlangs := busyHourErlangs;
     extra :=
       if String.eqb networkType "pstn" then
         let requiredCircuits := erlangB busyHourErlangs blockingProb in
         let t1Count := Qceiling (Qnat requiredCircuits / T1_CHANNELS) in
         PstnExtra requiredCircuits t1Count (inject_Z t1Count * T1_BANDWIDTH)
       else
         let codecBandwidth := CODEC_BANDWIDTHS !! codec in
         let totalBandwidthPerCall :=
           option_map (fun c => c + HEADER_BANDWIDTH) codecBandwidth in
         VoipExtra codec codecBandwidth HEADER_BANDWIDTH totalBandwidthPerCall
           (option_map (fun t => busyHourErlangs * t / 1000) totalBandwidthPerCall) |}.

(** The two nested loops of [calculateTrafficData] with their two
    [continue]s (self-links, zero-traffic links): the pairs that reach
    [results.push], in push order, with their daily minutes. *)
Definition trafficLinks (trafficMatrix : list (list Q)) : list (nat * nat * Q) :=
  flat_map (fun i =>
    flat_map (fun j =>
      if Nat.eqb i j then []
      else
        let dailyMinutes := matrix_get trafficMatrix i j in
        if Qeq_bool dailyMinutes 0 then [] else [(i, j, dailyMinutes)])
      (seq 0 (length LOCATIONS)))
    (seq 0 (length LOCATIONS)).

Definition calculateTrafficData_with (trafficMatrix : list (list Q))
    (networkType codec : string) (blockingProb : Q) : list LinkData :=
  map (fun '(i, j, dm) => linkData_of networkType codec blockingProb i j dm)
    (trafficLinks trafficMatrix).

Arguments linkData_of : simpl never.
Arguments total_of : simpl never.

(** Equal-split variant ([src/unnamed/part_001]). *)
Module Part001.

(** Row [i]: [matrix[i][j] = totalOutgoing / 2] for [j <> i], [0] on
    the diagonal. *)
Definition row (i : nat) : list Q :=
  let totalOutgoing := total_of (nth i LOCATIONS "") in
  let splitAmount := totalOutgoing / 2 in
  map (fun j => if Nat.eqb i j then 0 else splitAmount) (seq 0 (length LOCATIONS)).

Definition generateTrafficMatrix : list (list Q) :=
  map row (seq 0 (length LOCATIONS)).

Definition calculateTrafficData (networkType codec : string) (blockingProb : Q)
  : list LinkData :=
  calculateTrafficData_with generateTrafficMatrix networkType codec blockingProb.

End Part001.

(** Randomised-split variant ([src/app.js]).  [rand k] is the value of the
    [k]-th call of [Math.random()]; [generateTrafficMatrix] makes one call
    per origin, in the order of [LOCATIONS]. *)
Module App.

(** The inner loop over [j] with its [destIndex] counter. *)
Fixpoint row_from (i : nat) (totalOutgoing weight1 weight2 : Q)
    (js : list nat) (destIndex : nat) : list Q :=
  match js with
  | [] => []
  | j :: js' =>
      if Nat.eqb i j then 0 :: row_from i totalOutgoing weight1 weight2 js' destIndex
      else
        let weight := if Nat.eqb destIndex 0 then weight1 else weight2 in
        totalOutgoing * weight
          :: row_from i totalOutgoing weight1 weight2 js' (S destIndex)
  end.

Definition row (rand : nat -> Q) (i : nat) : list Q :=
  let totalOutgoing := total_of (nth i LOCATIONS "") in
  let weight1 := (3 # 10) + rand i * (4 # 10) in
  let weight2 := 1 - weight1 in
  row_from i totalOutgoing weight1 weight2 (seq 0 (length LOCATIONS)) 0.

Definition generateTrafficMatrix (rand : nat -> Q) : list (list Q) :=
  map (row rand) (seq 0 (length LOCATIONS)).

Definition calculateTrafficData (networkType codec : string) (blockingProb : Q)
    (rand : nat -> Q) : list LinkData :=
  calculateTrafficData_with (generateTrafficMatrix rand) networkType codec blockingProb.

End App.

(** Sum of [dailyMinutes] of the link records whose [from] is [origin]. *)
Definition sum_from (origin : string) (links : list LinkData) : Q :=
  fold_right Qplus 0
    (map dailyMinutes (filter (fun l => String.eqb (from l) origin) links)).

(* ------------------------------------------------------------------ *)
(** ** Call simulator ([src/callsim.js]) *)
(* ------------------------------------------------------------------ *)

(** A JavaScript number where IEEE division by zero matters. *)
Inductive jsnum := JFin (q : Q) | JPosInf | JNegInf | JNaN.

Definition Qlt_bool (a b : Q) : bool := negb (Qle_bool b a).

Definition js_div (a b : Q) : jsnum :=
  if Qeq_bool b 0 then
    (if Qeq_bool a 0 then JNaN else if Qlt_bool 0 a then JPosInf else JNegInf)
  else JFin (a / b).

(** [Math.pow(x, 2)] *)
Definition js_sq (x : jsnum) : jsnum :=
  match x with
  | JFin q => JFin (q * q)
  | JPosInf | JNegInf => JPosInf
  | JNaN => JNaN
  end.

(** [q * x] for a finite [q]. *)
Definition js_scale (q : Q) (x : jsnum) : jsnum :=
  match x with
  | JFin r => JFin (q * r)
  | JPosInf => if Qeq_bool q 0 then JNaN else if Qlt_bool 0 q then JPosInf else JNegInf
  | JNegInf => if Qeq_bool q 0 then JNaN else if Qlt_bool 0 q then JNegInf else JPosInf
  | JNaN => JNaN
  end.

(** [r < x] for a finite [r]. *)
Definition js_lt (r : Q) (x : jsnum) : bool :=
  match x with
  | JFin q => Qlt_bool r q
  | JPosInf => true
  | JNegInf | JNaN => false
  end.

(** A snapshot of [window.snapshots] (built by [runAnalysis] in app.js). *)
Record Snapshot := {
  snapId : string;
  snapNetworkType : string;
  snapCodec : string;
  snapBlockingProb : Q;
  trafficData : list LinkData
}.

(** The result of [calculateDynamicSimulationParams]. *)
Record SimParams := {
  paramCallDuration : Q;
  paramBandwidthPerCall : Q;
  paramMaxConcurrentCalls : Z;
  paramBlockingProb : Q;
  paramNetworkType : string
}.

Definition calculateDynamicSimulationParams (snapshot : Snapshot) : SimParams :=
  let baseCallDuration := 180 in
  if String.eqb (snapNetworkType snapshot) "pstn" then
    let bandwidthPerCall := 64 in
    {| paramCallDuration := baseCallDuration;
       paramBandwidthPerCall := bandwidthPerCall;
       paramMaxConcurrentCalls := Qfloor ((1544 # 1000) * 1000 / bandwidthPerCall);
       paramBlockingProb := snapBlockingProb snapshot;
       paramNetworkType := snapNetworkType snapshot |}
  else
    let bandwidthPerCall := if String.eqb (snapCodec snapshot) "g729a" then 8 else 64 in
    {| paramCallDuration := baseCallDuration;
       paramBandwidthPerCall := bandwidthPerCall;
       paramMaxConcurrentCalls := Qfloor (1000 / bandwidthPerCall);
       paramBlockingProb := snapBlockingProb snapshot;
       paramNetworkType := snapNetworkType snapshot |}.

(** A link object of [window.simulationData[id].links], as built by the
    [snapshot.trafficData.map] of [startSimulation] from
    [calculateLinkSimulationParams].  (The [callId] counter that
    [spawnDynamicCall] keeps on it only feeds log messages.) *)
Record SimLink := {
  linkName : string;
  rate : Q;
  bandwidth : Q;
  linkBlockingProb : Q;
  maxConcurrentCalls : Z;
  callDuration : Q
}.

Definition simLink_of (snapshot : Snapshot) (params : SimParams) (link : LinkData)
    : SimLink :=
  let theoreticalCallRate := busyHourErlangs link * 60 / paramCallDuration params in
  let actualCallRate := theoreticalCallRate * (1 - paramBlockingProb params) in
  let callRatePerMinute := actualCallRate / 60 in
  let bandwidthPerCall :=
    if String.eqb (paramNetworkType params) "pstn" then 64 / 1000
    else (if String.eqb (snapCodec snapshot) "g729a" then 8 else 64) / 1000 in
  let maxConcurrentCalls :=
    Z.min (Qfloor (busyHourErlangs link)) (paramMaxConcurrentCalls params) in
  {| linkName := from link ++ " → " ++ to link;
     rate := callRatePerMinute;
     bandwidth := bandwidthPerCall;
     linkBlockingProb := snapBlockingProb snapshot;
     maxConcurrentCalls := maxConcurrentCalls;
     callDuration := paramCallDuration params * 1000 |}.

(** The per-snapshot object [window.simulationData[id]].  Counters that
    the code reads as [x || 0] while still [undefined] start at [0];
    [lastUpdateTime] and [startTime] are [None] while unset. *)
Record SimData := {
  activeCalls : Z;
  totalCalls : Z;
  blockedCalls : Z;
  bandwidthUsage : Q;
  peakActiveCalls : Z;
  peakBandwidthUsage : Q;
  startTime : option Q;
  lastUpdateTime : option Q;
  simLinks : list SimLink
}.

Definition freshSimData : SimData :=
  {| activeCalls := 0; totalCalls := 0; blockedCalls := 0; bandwidthUsage := 0;
     peakActiveCalls := 0; peakBandwidthUsage := 0; startTime := None;
     lastUpdateTime := None; simLinks := [] |}.

(** The callback behind a live [setInterval]/[setTimeout] handle. *)
Inductive Timer :=
| ArrivalTimer (snapshotId : string) (link : SimLink)    (* setInterval, per link *)
| MetricsTimer (snapshotId : string)                     (* setInterval, 2000 ms *)
| AutostopTimer (snapshotId : string)                    (* setTimeout, 10000 ms *)
| CountdownTimer                                         (* setInterval, no effect *)
| DepartureTimer (data : nat) (bandwidth : Q).           (* setTimeout of a call end *)

Definition is_timeout (t : Timer) : bool :=
  match t with AutostopTimer _ | DepartureTimer _ _ => true | _ => false end.

(** What the metrics elements of a snapshot show. *)
Record Display := {
  shownActiveCalls : Z;
  shownBandwidthUsage : Q;
  shownBlockedCalls : Z
}.

(** The browser state the simulator works on.  JavaScript objects live in
    [heap]; [simulationData] maps a snapshot id to the object it holds,
    so that a call-end callback keeps mutating the object it captured.
    [liveTimers] are the pending timer handles of the browser,
    [simulationTimers] is [window.simulationTimers] (key -> handle).
    [domIds] are the snapshots whose simulation elements are in the page. *)
Record World := {
  snapshots : list Snapshot;
  domIds : list string;
  simulationRunning : bool;
  currentSimulationId : option string;
  simulationData : gmap string nat;
  heap : gmap nat SimData;
  nextRef : nat;
  liveTimers : gmap nat Timer;
  nextHandle : nat;
  simulationTimers : gmap string nat;
  display : gmap string Display
}.

Definition set_heap (h : gmap nat SimData) (w : World) : World :=
  {| snapshots := snapshots w; domIds := domIds w;
     simulationRunning := simulationRunning w;
     currentSimulationId := currentSimulationId w;
     simulationData := simulationData w; heap := h; nextRef := nextRef w;
     liveTimers := liveTimers w; nextHandle := nextHandle w;
     simulationTimers := simulationTimers w; display := display w |}.

Definition set_timers (live : gmap nat Timer) (next : nat)
    (registry : gmap string nat) (w : World) : World :=
  {| snapshots := snapshots w; domIds := domIds w;
     simulationRunning := simulationRunning w;
     currentSimulationId := currentSimulationId w;
     simulationData := simulationData w; heap := heap w; nextRef := nextRef w;
     liveTimers := live; nextHandle := next;
     simulationTimers := registry; display := display w |}.

Definition set_flags (running : bool) (current : option string) (w : World) : World :=
  {| snapshots := snapshots w; domIds := domIds w;
     simulationRunning := running; currentSimulationId := current;
     simulationData := simulationData w; heap := heap w; nextRef := nextRef w;
     liveTimers := liveTimers w; nextHandle := nextHandle w;
     simulationTimers := simulationTimers w; display := display w |}.

Definition set_display (d : gmap string Display) (w : World) : World :=
  {| snapshots := snapshots w; domIds := domIds w;
     simulationRunning := simulationRunning w;
     currentSimulationId := currentSimulationId w;
     simulationData := simulationData w; heap := heap w; nextRef := nextRef w;
     liveTimers := liveTimers w; nextHandle := nextHandle w;
     simulationTimers := simulationTimers w; display := d |}.

Definition set_dom (ids : list string) (w : World) : World :=
  {| snapshots := snapshots w; domIds := ids;
     simulationRunning := simulationRunning w;
     currentSimulationId := currentSimulationId w;
     simulationData := simulationData w; heap := heap w; nextRef := nextRef w;
     liveTimers := liveTimers w; nextHandle := nextHandle w;
     simulationTimers := simulationTimers w; display := display w |}.

(** [setTimeout]/[setInterval]: a new live handle. *)
Definition schedule (t : Timer) (w : World) : nat * World :=
  (nextHandle w,
   set_timers (<[nextHandle w := t]> (liveTimers w)) (S (nextHandle w))
     (simulationTimers w) w).

(** [window.simulationTimers[key] = handle] *)
Definition register (key : string) (h : nat) (w : World) : World :=
  set_timers (liveTimers w) (nextHandle w) (<[key := h]> (simulationTimers w)) w.

Definition has_dom (snapshotId : string) (w : World) : bool :=
  bool_decide (snapshotId ∈ domIds w).

(** [window.simulationData[snapshotId]], dereferenced. *)
Definition getSimulationMetrics (snapshotId : string) (w : World) : option SimData :=
  simulationData w !! snapshotId ≫= fun r => heap w !! r.

(** [clearSimulation]: every key of [window.simulationTimers] that starts
    with [snapshotId] is cleared and deleted. *)
Definition clearSimulation (snapshotId : string) (w : World) : World :=
  let keys := filter (fun k => String.prefix snapshotId k = true)
                (map fst (map_to_list (simulationTimers w))) in
  let live := foldr (fun k acc =>
                 match simulationTimers w !! k with
                 | Some h => delete h acc
                 | None => acc
                 end) (liveTimers w) keys in
  let registry := filter (fun kv : string * nat => String.prefix snapshotId kv.1 = false)
                    (simulationTimers w) in
  set_timers live (nextHandle w) registry w.

Definition with_lastUpdateTime (t : Q) (d : SimData) : SimData :=
  {| activeCalls := activeCalls d; totalCalls := totalCalls d;
     blockedCalls := blockedCalls d; bandwidthUsage := bandwidthUsage d;
     peakActiveCalls := peakActiveCalls d; peakBandwidthUsage := peakBandwidthUsage d;
     startTime := startTime d; lastUpdateTime := Some t; simLinks := simLinks d |}.

(** [updateSimulationMetrics(snapshotId)] at time [now] (the value of
    [performance.now()]).  The DOM writes it batches are applied here at
    once. *)
Definition updateSimulationMetrics (snapshotId : string) (now : Q) (w : World) : World :=
  match simulationData w !! snapshotId with
  | None => w
  | Some r =>
      match heap w !! r with
      | None => w
      | Some d =>
          let due := match lastUpdateTime d with
                     | None => true
                     | Some t => Qeq_bool t 0 || Qlt_bool 500 (now - t)
                     end in
          if due then
            let w1 := set_heap (<[r := with_lastUpdateTime now d]> (heap w)) w in
            if has_dom snapshotId w then
              set_display (<[snapshotId :=
                  {| shownActiveCalls := activeCalls d;
                     shownBandwidthUsage := bandwidthUsage d;
                     shownBlockedCalls := blockedCalls d |}]> (display w1)) w1
            else w1
          else w
      end
  end.

(** [stopSimulation(snapshotId)] *)
Definition stopSimulation (snapshotId : string) (now : Q) (w : World) : World :=
  if negb (has_dom snapshotId w) then w
  else
    let current := if bool_decide (currentSimulationId w = Some snapshotId) then None
                   else currentSimulationId w in
    let w1 := set_flags false current w in
    updateSimulationMetrics snapshotId now (clearSimulation snapshotId w1).

(** The [links.forEach] of [startSimulation] that starts one interval per
    link under the key [`${snapshotId}-${index}`]. *)
Fixpoint register_links (snapshotId : string) (links : list SimLink) (index : nat)
    (w : World) : World :=
  match links with
  | [] => w
  | link :: links' =>
      let '(h, w1) := schedule (ArrivalTimer snapshotId link) w in
      register_links snapshotId links' (S index)
        (register (snapshotId ++ "-" ++ pretty index) h w1)
  end.

Definition reset_for_start (now : Q) (links : list SimLink) (d : SimData) : SimData :=
  {| activeCalls := 0; totalCalls := 0; blockedCalls := 0; bandwidthUsage := 0;
     peakActiveCalls := peakActiveCalls d; peakBandwidthUsage := peakBandwidthUsage d;
     startTime := Some now; lastUpdateTime := lastUpdateTime d; simLinks := links |}.

(** [startSimulation(snapshotId)] at time [now]. *)
Definition startSimulation (snapshotId : string) (now : Q) (w : World) : World :=
  if negb (has_dom snapshotId w) then w
  else
    (* Stop any other running simulation; [stopSimulation(null)] finds no
       elements and returns. *)
    let w1 :=
      if simulationRunning w && negb (bool_decide (currentSimulationId w = Some snapshotId))
      then match currentSimulationId w with
           | Some other => stopSimulation other now w
           | None => w
           end
      else w in
    let w2 := set_flags true (Some snapshotId) w1 in
    match find (fun s => String.eqb (snapId s) snapshotId) (snapshots w2) with
    | None => w2                         (* "No snapshot data found" *)
    | Some snapshot =>
        let simulationParams := calculateDynamicSimulationParams snapshot in
        let links := map (simLink_of snapshot simulationParams) (trafficData snapshot) in
        match simulationData w2 !! snapshotId with
        | None => w2                     (* TypeError on simulationData[id].links *)
        | Some r =>
            match heap w2 !! r with
            | None => w2
            | Some d =>
                let w3 := set_heap (<[r := reset_for_start now links d]> (heap w2)) w2 in
                let w4 := register_links snapshotId links 0 w3 in
                let '(hm, w5) := schedule (MetricsTimer snapshotId) w4 in
                let w6 := register (snapshotId ++ "-metrics") hm w5 in
                let '(ha, w7) := schedule (AutostopTimer snapshotId) w6 in
                let w8 := register (snapshotId ++ "-autostop") ha w7 in
                let '(hc, w9) := schedule CountdownTimer w8 in
                register (snapshotId ++ "-countdown") hc w9
            end
        end
    end.

(** The values returned by the [Math.random()] calls of one firing of a
    link interval, in call order (the first call, [randomFactor], is
    unused by the code and left out). *)
Record Draws := {
  drawSpawn : Q;    (* if (Math.random() < 0.8) spawnDynamicCall(...) *)
  drawBlock : Q;    (* const isBlocked = Math.random() < blockingProbability *)
  drawDebug : Q     (* if (Math.random() < 0.1) console.log(`Call ${callId}...`) *)
}.

(** [link.blockingProb * Math.pow(currentActiveCalls / maxCalls, 2)] *)
Definition blockingThreshold (link : SimLink) (currentActiveCalls : Z) : jsnum :=
  let maxCalls := maxConcurrentCalls link in
  let utilization := js_div (inject_Z currentActiveCalls) (inject_Z maxCalls) in
  js_scale (linkBlockingProb link) (js_sq utilization).

Definition incr_blocked (d : SimData) : SimData :=
  {| activeCalls := activeCalls d; totalCalls := totalCalls d;
     blockedCalls := (blockedCalls d + 1)%Z; bandwidthUsage := bandwidthUsage d;
     peakActiveCalls := peakActiveCalls d; peakBandwidthUsage := peakBandwidthUsage d;
     startTime := startTime d; lastUpdateTime := lastUpdateTime d; simLinks := simLinks d |}.

(** The accepted-call branch: counters, bandwidth and peak tracking. *)
Definition accept_call (link : SimLink) (d : SimData) : SimData :=
  let active := (activeCalls d + 1)%Z in
  let usage := bandwidthUsage d + bandwidth link in
  {| activeCalls := active; totalCalls := (totalCalls d + 1)%Z;
     blockedCalls := blockedCalls d; bandwidthUsage := usage;
     peakActiveCalls := if Z.ltb (peakActiveCalls d) active then active else peakActiveCalls d;
     peakBandwidthUsage := if Qlt_bool (peakBandwidthUsage d) usage then usage
                           else peakBandwidthUsage d;
     startTime := startTime d; lastUpdateTime := lastUpdateTime d; simLinks := simLinks d |}.

(** [spawnDynamicCall(snapshotId, link, linkIndex)].  The debug log reads
    the [const callId] before its declaration: when its draw is below 0.1
    the callback throws a ReferenceError before any mutation. *)
Definition spawnDynamicCall (snapshotId : string) (link : SimLink) (dr : Draws)
    (w : World) : World :=
  match simulationData w !! snapshotId with
  | None => w                                   (* TypeError: data is undefined *)
  | Some r =>
      match heap w !! r with
      | None => w
      | Some d =>
          let isBlocked := js_lt (drawBlock dr) (blockingThreshold link (activeCalls d)) in
          if Qlt_bool (drawDebug dr) (1 # 10) then w
          else if isBlocked then set_heap (<[r := incr_blocked d]> (heap w)) w
          else
            let w1 := set_heap (<[r := accept_call link d]> (heap w)) w in
            snd (schedule (DepartureTimer r (bandwidth link)) w1)
      end
  end.

Definition end_call (bw : Q) (d : SimData) : SimData :=
  {| activeCalls := (activeCalls d - 1)%Z; totalCalls := totalCalls d;
     blockedCalls := blockedCalls d; bandwidthUsage := bandwidthUsage d - bw;
     peakActiveCalls := peakActiveCalls d; peakBandwidthUsage := peakBandwidthUsage d;
     startTime := startTime d; lastUpdateTime := lastUpdateTime d; simLinks := simLinks d |}.

(** The call-end [setTimeout] callback of [spawnDynamicCall] on the
    captured [data] object. *)
Definition departure (r : nat) (bw : Q) (w : World) : World :=
  match heap w !! r with
  | None => w
  | Some d =>
      if Z.ltb 0 (activeCalls d) then set_heap (<[r := end_call bw d]> (heap w)) w
      else w
  end.

(** A live timer [h] runs its callback; a timeout is gone afterwards. *)
Definition fireTimer (h : nat) (t : Timer) (now : Q) (dr : Draws) (w : World) : World :=
  let w0 := if is_timeout t
            then set_timers (delete h (liveTimers w)) (nextHandle w) (simulationTimers w) w
            else w in
  match t with
  | ArrivalTimer snapshotId link =>
      if Qlt_bool (drawSpawn dr) (8 # 10) then spawnDynamicCall snapshotId link dr w0 else w0
  | MetricsTimer snapshotId => updateSimulationMetrics snapshotId now w0
  | AutostopTimer snapshotId => stopSimulation snapshotId now w0
  | CountdownTimer => w0
  | DepartureTimer r bw => departure r bw w0
  end.

(** [initializeSimulation(snapshotId)]: a new [simulationData] object. *)
Definition initializeSimulation (snapshotId : string) (w : World) : World :=
  if negb (has_dom snapshotId w) then w
  else
    let w1 := match simulationData w !! snapshotId with
              | Some _ => clearSimulation snapshotId w
              | None => w
              end in
    let r := nextRef w1 in
    {| snapshots := snapshots w1; domIds := domIds w1;
       simulationRunning := simulationRunning w1;
       currentSimulationId := currentSimulationId w1;
       simulationData := <[snapshotId := r]> (simulationData w1);
       heap := <[r := freshSimData]> (heap w1); nextRef := S r;
       liveTimers := liveTimers w1; nextHandle := nextHandle w1;
       simulationTimers := simulationTimers w1; display := display w1 |}.

(** What can happen next in the page. *)
Inductive Event :=
| EvInitialize (snapshotId : string)
| EvStart (snapshotId : string) (now : Q)       (* start button *)
| EvStop (snapshotId : string) (now : Q)        (* stop button *)
| EvFire (h : nat) (now : Q) (dr : Draws)       (* a live timer fires *)
| EvResultsReplaced.    (* runAnalysis: resultsSection.innerHTML = '<div class="error-message">...' *)

Definition step (w : World) (ev : Event) : World :=
  match ev with
  | EvInitialize sid => initializeSimulation sid w
  | EvStart sid now => startSimulation sid now w
  | EvStop sid now => stopSimulation sid now w
  | EvFire h now dr =>
      match liveTimers w !! h with
      | Some t => fireTimer h t now dr w
      | None => w
      end
  | EvResultsReplaced => set_dom [] w
  end.

Definition run (w : World) (evs : list Event) : World := fold_left step evs w.

(* ------------------------------------------------------------------ *)
(** ** Concrete scenarios *)
(* ------------------------------------------------------------------ *)

(** A VoIP/G.711 analysis at blocking probability 0.01 whose random
    weights all come out at 0.54 ([Math.random()] = 0.6), as
    [runAnalysis] stores it in [window.snapshots]. *)
Definition demo_id : string := "1760000000000-42".

Definition demo_snapshot : Snapshot :=
  {| snapId := demo_id; snapNetworkType := "voip"; snapCodec := "g711";
     snapBlockingProb := 1 # 100;
     trafficData := App.calculateTrafficData "voip" "g711" (1 # 100) (fun _ => 3 # 5) |}.

(** The page right after the snapshot has been rendered. *)
Definition demo_world : World :=
  {| snapshots := [demo_snapshot]; domIds := [demo_id];
     simulationRunning := false; currentSimulationId := None;
     simulationData := ∅; heap := ∅; nextRef := 0;
     liveTimers := ∅; nextHandle := 0; simulationTimers := ∅; display := ∅ |}.

(** Draws under which a link interval spawns a call that is accepted
    whenever the blocking threshold is below 0.99. *)
Definition accept_draws : Draws :=
  {| drawSpawn := 0; drawBlock := 99 # 100; drawDebug := 1 # 2 |}.

(** Opening the simulation of the snapshot at [t = 0].  It then holds the
    arrival intervals 0..5 (one per link, in the order US → China,
    US → UK, China → US, China → UK, UK → US, UK → China), the metrics
    interval 6, the auto-stop timeout 7 and the countdown interval 8; call
    ends get the handles from 9 on.  The China → US interval has a period
    of [1000 / rate] = 4201.2 ms, UK → US one of 4244.1 ms. *)
Definition trace_start : list Event := [EvInitialize demo_id; EvStart demo_id 0].

(** The [k]-th firing of the China → US interval, accepted. *)
Definition china_us_arrival (k : nat) : Event :=
  EvFire 2 (Qnat (S k) * 4202) accept_draws.

(** The user submits the analysis form with an out-of-range blocking
    probability at 1 s: [runAnalysis] replaces the results section, and
    with it the snapshot's simulation elements.  At 10 s the auto-stop
    runs [stopSimulation], which finds no elements and returns, so the
    arrival intervals keep running; the China → US interval alone then
    brings 16 calls in 67 s, long before the first call ends (180 s). *)
Definition trace_leak : list Event :=
  trace_start ++ [EvResultsReplaced] ++ map china_us_arrival [0; 1]%nat
  ++ [EvFire 7 10000 accept_draws] ++ map china_us_arrival (seq 2 14).

(** Metrics pushes at 2 s and 4 s, arrivals on China → US (4.2 s) and
    UK → US (4.245 s), and a click on Stop at 4.3 s. *)
Definition trace_stop_after_push : list Event :=
  trace_start ++
  [EvFire 6 2000 accept_draws; EvFire 6 4000 accept_draws;
   EvFire 2 4202 accept_draws; EvFire 4 4245 accept_draws; EvStop demo_id 4300].

(** One accepted call on China → US, then Stop at 5 s. *)
Definition trace_call_then_stop : list Event :=
  trace_start ++ [EvFire 2 4202 accept_draws; EvStop demo_id 5000].

(** The page of [demo_world] where [window.snapshots] does not hold the
    snapshot whose elements are rendered. *)
Definition world_without_snapshot : World :=
  {| snapshots := []; domIds := [demo_id];
     simulationRunning := false; currentSimulationId := None;
     simulationData := ∅; heap := ∅; nextRef := 0;
     liveTimers := ∅; nextHandle := 0; simulationTimers := ∅; display := ∅ |}.

(** Every [simulationData] object has a non-negative [activeCalls]. *)
Definition heap_ok (w : World) : Prop :=
  map_Forall (fun _ d => (0 <= activeCalls d)%Z) (heap w).


(** The China → US link of [demo_snapshot] as [startSimulation] builds it. *)
Definition demo_sim_link : SimLink :=
  {| linkName := "China → US"; rate := 771206475600 # 3240000000000;
     bandwidth := 64 # 1000; linkBlockingProb := 1 # 100;
     maxConcurrentCalls := 15; callDuration := 180000 |}.

(** The running simulation of [demo_snapshot] with 15 calls in progress. *)
Definition saturated_data : SimData :=
  {| activeCalls := 15; totalCalls := 15; blockedCalls := 0;
     bandwidthUsage := 15 * (64 # 1000); peakActiveCalls := 15;
     peakBandwidthUsage := 15 * (64 # 1000); startTime := Some 0;
     lastUpdateTime := Some 60000; simLinks := [demo_sim_link] |}.

Definition saturated_world : World :=
  {| snapshots := [demo_snapshot]; domIds := [demo_id];
     simulationRunning := true; currentSimulationId := Some demo_id;
     simulationData := {[demo_id := 0%nat]}; heap := {[0%nat := saturated_data]};
     nextRef := 1; liveTimers := ∅; nextHandle := 24;
     simulationTimers := ∅; display := ∅ |}.

(* ------------------------------------------------------------------ *)
(** ** Metrics derived from the link records ([src/app.js]) *)
(* ------------------------------------------------------------------ *)

(** [link.bandwidthMbps] when [networkType === 'pstn'], else
    [link.totalBandwidthMbps].  [None] stands for [undefined] (the field
    of the other mode) and for [NaN] (an unknown codec); adding either to
    a number gives [NaN]. *)
Definition link_bandwidth (networkType : string) (link : LinkData) : option Q :=
  if String.eqb networkType "pstn" then
    match extra link with PstnExtra _ _ bandwidthMbps => Some bandwidthMbps | VoipExtra _ _ _ _ _ => None end
  else
    match extra link with VoipExtra _ _ _ _ totalBandwidthMbps => totalBandwidthMbps | PstnExtra _ _ _ => None end.

(** [sum + x] on numbers where [NaN] is [None]. *)
Definition js_add (sum x : option Q) : option Q :=
  sum ≫= fun s => x ≫= fun y => Some (s + y).

(** [total > 0 ? calls / total : 0]; [NaN > 0] is false. *)
Definition score_of (calls : Q) (total : option Q) : Q :=
  match total with
  | Some b => if Qlt_bool 0 b then calls / b else 0
  | None => 0
  end.

(** [codec || 'N/A'] *)
Definition codec_or_na (codec : string) : string :=
  if String.eqb codec "" then "N/A" else codec.

Record ProtocolMetrics := {
  pmTotalCalls : Q;
  pmTotalBandwidth : option Q;
  pmAverageCallDuration : Q;
  pmEfficiencyScore : Q;
  pmProtocolType : string;
  pmCodec : string
}.

(** [calculateProtocolEfficiency(trafficData, networkType, codec)]; the
    [forEach] accumulates [totalCalls] and [totalBandwidth] together. *)
Definition calculateProtocolEfficiency (trafficData : list LinkData)
    (networkType codec : string) : ProtocolMetrics :=
  let '(totalCalls, totalBandwidth) :=
    fold_left (fun '(calls, bw) link =>
                 (calls + busyHourErlangs link, js_add bw (link_bandwidth networkType link)))
              trafficData (0, Some 0) in
  {| pmTotalCalls := totalCalls;
     pmTotalBandwidth := totalBandwidth;
     pmAverageCallDuration := 3;
     pmEfficiencyScore := score_of totalCalls totalBandwidth;
     pmProtocolType := networkType;
     pmCodec := codec_or_na codec |}.

(** The object returned by [getSimulationData(snapshotId)] ([averageCallRate]
    is never set on [window.simulationData[id]], so it is always [0]). *)
Record SimSummary := {
  sTotalCalls : Z;
  sBlockedCalls : Z;
  sActiveCalls : Z;
  sBandwidthUsage : Q;
  sPeakActiveCalls : Z;
  sAverageCallRate : Q;
  sActualBlockingRate : Q;
  sEfficiencyScore : Q
}.

Definition getSimulationData (snapshotId : string) (w : World) : SimSummary :=
  match getSimulationMetrics snapshotId w with
  | None =>
      {| sTotalCalls := 0; sBlockedCalls := 0; sActiveCalls := 0; sBandwidthUsage := 0;
         sPeakActiveCalls := 0; sAverageCallRate := 0; sActualBlockingRate := 0;
         sEfficiencyScore := 0 |}
  | Some d =>
      let totalCalls := totalCalls d in
      let blockedCalls := blockedCalls d in
      {| sTotalCalls := totalCalls; sBlockedCalls := blockedCalls;
         sActiveCalls := activeCalls d; sBandwidthUsage := bandwidthUsage d;
         sPeakActiveCalls := peakActiveCalls d; sAverageCallRate := 0;
         sActualBlockingRate :=
           if Z.ltb 0 totalCalls then inject_Z blockedCalls / inject_Z totalCalls * 100 else 0;
         sEfficiencyScore :=
           if Qlt_bool 0 (bandwidthUsage d) then inject_Z totalCalls / bandwidthUsage d else 0 |}
  end.

(** The blocking rate [updateSimulationMetrics] writes to
    [blockingRate-<id>] (before [toFixed(1)]); nothing is written unless
    [data.totalCalls > 0]. *)
Definition liveBlockingRate (d : SimData) : option Q :=
  if Z.ltb 0 (totalCalls d) then
    Some (inject_Z (blockedCalls d) / inject_Z (totalCalls d + blockedCalls d) * 100)
  else None.

(** The numeric part of the object [generateSnapshotSummary(snapshot)]
    returns. *)
Record SnapshotSummary := {
  sumFromSimulation : bool;
  sumTotalDailyMinutes : Q;
  sumTotalErlangs : Q;
  sumTotalBandwidth : option Q;
  sumEfficiencyScore : Q;
  sumLinkCount : nat
}.

(** [None]: the fallback branch calls [trafficData.reduce] with no initial
    value, which throws a TypeError on an empty [trafficData]. *)
Definition generateSnapshotSummary (snapshot : Snapshot) (w : World) : option SnapshotSummary :=
  let networkType := snapNetworkType snapshot in
  let td := trafficData snapshot in
  let simulationData := getSimulationData (snapId snapshot) w in
  let totalDailyMinutes := fold_left (fun sum link => sum + dailyMinutes link) td 0 in
  let totalErlangs := fold_left (fun sum link => sum + busyHourErlangs link) td 0 in
  let totalBandwidth :=
    fold_left (fun sum link => js_add sum (link_bandwidth networkType link)) td (Some 0) in
  if Z.ltb 0 (sTotalCalls simulationData) then
    Some {| sumFromSimulation := true; sumTotalDailyMinutes := totalDailyMinutes;
            sumTotalErlangs := totalErlangs; sumTotalBandwidth := totalBandwidth;
            sumEfficiencyScore := sEfficiencyScore simulationData;
            sumLinkCount := length td |}
  else
    match td with
    | [] => None
    | _ :: _ =>
        Some {| sumFromSimulation := false; sumTotalDailyMinutes := totalDailyMinutes;
                sumTotalErlangs := totalErlangs; sumTotalBandwidth := totalBandwidth;
                sumEfficiencyScore := score_of totalErlangs totalBandwidth;
                sumLinkCount := length td |}
    end.

(** Sum of [busyHourErlangs] over a list of link records. *)
Definition sum_erlangs (links : list LinkData) : Q :=
  fold_right (fun l s => busyHourErlangs l + s) 0 links.

(** Two snapshots taken in the same millisecond whose random suffixes are
    [1] and [17] ([runAnalysis] builds ids as [Date.now() + '-' +
    Math.floor(Math.random() * 1000)]); the second one's simulation is
    running. *)
Definition prefix_world : World :=
  {| snapshots := []; domIds := ["1700000000000-1"; "1700000000000-17"];
     simulationRunning := true; currentSimulationId := Some "1700000000000-17";
     simulationData := ∅; heap := ∅; nextRef := 0;
     liveTimers := {[5%nat := MetricsTimer "1700000000000-17"]}; nextHandle := 6;
     simulationTimers := {["1700000000000-17-metrics" := 5%nat]}; display := ∅ |}.

(** [window.clearAllSimulations()]: [clearSimulation] for every key of
    [window.simulationData] (taken here in the map's order, where the
    browser uses insertion order), then the registry of simulation
    objects is emptied and the flags reset. *)
Definition clearAllSimulations (w : World) : World :=
  let w1 := fold_left (fun acc sid => clearSimulation sid acc)
              (map fst (map_to_list (simulationData w))) w in
  {| snapshots := snapshots w1; domIds := domIds w1;
     simulationRunning := false; currentSimulationId := None;
     simulationData := ∅; heap := heap w1; nextRef := nextRef w1;
     liveTimers := liveTimers w1; nextHandle := nextHandle w1;
     simulationTimers := simulationTimers w1; display := display w1 |}.

(** Consistency of the counters of a simulation object: no negative
    counter, and the recorded peak is at least the current number of
    active calls. *)
Definition sim_ok (d : SimData) : Prop :=
  (0 <= activeCalls d <= peakActiveCalls d /\ 0 <= totalCalls d /\ 0 <= blockedCalls d)%Z.

(* ------------------------------------------------------------------ *)
(** ** Snapshot comparison ([checkIfSnapshotsAreIdentical] in app.js) *)
(* ------------------------------------------------------------------ *)

(** A property read off a link object: [undefined], a number ([None] is
    [NaN]) or a string. *)
Inductive jsval :=
| JUndef
| JNumV (n : option Q)
| JStrV (s : string).

Definition get_requiredCircuits (l : LinkData) : jsval :=
  match extra l with PstnExtra rc _ _ => JNumV (Some (Qnat rc)) | _ => JUndef end.
Definition get_t1Count (l : LinkData) : jsval :=
  match extra l with PstnExtra _ t1 _ => JNumV (Some (inject_Z t1)) | _ => JUndef end.
Definition get_bandwidthMbps (l : LinkData) : jsval :=
  match extra l with PstnExtra _ _ bw => JNumV (Some bw) | _ => JUndef end.
Definition get_codec (l : LinkData) : jsval :=
  match extra l with VoipExtra c _ _ _ _ => JStrV c | _ => JUndef end.
Definition get_totalBandwidthPerCall (l : LinkData) : jsval :=
  match extra l with VoipExtra _ _ _ t _ => JNumV t | _ => JUndef end.
Definition get_totalBandwidthMbps (l : LinkData) : jsval :=
  match extra l with VoipExtra _ _ _ _ t => JNumV t | _ => JUndef end.

(** [a !== b] *)
Definition strict_neq (a b : jsval) : bool :=
  match a, b with
  | JUndef, JUndef => false
  | JNumV (Some x), JNumV (Some y) => negb (Qeq_bool x y)
  | JNumV _, JNumV _ => true                   (* NaN !== anything *)
  | JStrV s, JStrV t => negb (String.eqb s t)
  | _, _ => true
  end.

(** [Number(a)]: [undefined] and [NaN] are [None]. *)
Definition to_number (a : jsval) : option Q :=
  match a with JNumV n => n | _ => None end.

(** [Math.abs(a - b) > 0.01] (false as soon as one side is [NaN]). *)
Definition abs_diff_gt (a b : option Q) : bool :=
  match a, b with
  | Some x, Some y => Qlt_bool (1 # 100) (Qabs (x - y))
  | _, _ => false
  end.

(** One iteration of the [for] loop: [false] when it returns [false]. *)
Definition link_identical (networkType : string) (link1 link2 : LinkData) : bool :=
  if negb (String.eqb (from link1) (from link2)) || negb (String.eqb (to link1) (to link2))
  then false
  else if abs_diff_gt (Some (dailyMinutes link1)) (Some (dailyMinutes link2)) then false
  else if abs_diff_gt (Some (busyHourErlangs link1)) (Some (busyHourErlangs link2)) then false
  else if String.eqb networkType "pstn" then
    negb (strict_neq (get_requiredCircuits link1) (get_requiredCircuits link2) ||
          strict_neq (get_t1Count link1) (get_t1Count link2) ||
          abs_diff_gt (to_number (get_bandwidthMbps link1)) (to_number (get_bandwidthMbps link2)))
  else
    negb (strict_neq (get_codec link1) (get_codec link2) ||
          strict_neq (get_totalBandwidthPerCall link1) (get_totalBandwidthPerCall link2) ||
          abs_diff_gt (to_number (get_totalBandwidthMbps link1))
                      (to_number (get_totalBandwidthMbps link2))).

(** The loop over [i < snapshot1.trafficData.length] (the lengths are
    equal when it runs). *)
Fixpoint links_identical (networkType : string) (td1 td2 : list LinkData) : bool :=
  match td1, td2 with
  | link1 :: td1', link2 :: td2' =>
      link_identical networkType link1 link2 && links_identical networkType td1' td2'
  | _, _ => true
  end.

Definition checkIfSnapshotsAreIdentical (snapshot1 snapshot2 : Snapshot) : bool :=
  if negb (String.eqb (snapNetworkType snapshot1) (snapNetworkType snapshot2)) then false
  else if negb (Qeq_bool (snapBlockingProb snapshot1) (snapBlockingProb snapshot2)) then false
  else if String.eqb (snapNetworkType snapshot1) "voip" &&
          negb (String.eqb (snapCodec snapshot1) (snapCodec snapshot2)) then false
  else if negb (Nat.eqb (length (trafficData snapshot1)) (length (trafficData snapshot2)))
  then false
  else links_identical (snapNetworkType snapshot1) (trafficData snapshot1) (trafficData snapshot2).

(* ------------------------------------------------------------------ *)
(** ** Analyses and their selection ([runAnalysis], [clearSnapshots],
       the checkbox listener, [updateCompareButton] in app.js) *)
(* ------------------------------------------------------------------ *)

(** The page state these functions share: the [snapshots] array, the
    [selectedSnapshots] set, the ids of the snapshot sections present in
    [resultsSection] (each holds the checkbox of its snapshot), the
    Compare button, and whether an error message is shown. *)
Record AppState := {
  appSnapshots : list Snapshot;
  selectedSnapshots : gset string;
  renderedIds : list string;
  compareCount : nat;            (* the count in "Compare Selected (n/2)" *)
  compareDisabled : bool;
  errorShown : bool
}.

Definition set_selection (sel : gset string) (st : AppState) : AppState :=
  {| appSnapshots := appSnapshots st; selectedSnapshots := sel;
     renderedIds := renderedIds st; compareCount := compareCount st;
     compareDisabled := compareDisabled st; errorShown := errorShown st |}.

Definition updateCompareButton (st : AppState) : AppState :=
  let count := size (selectedSnapshots st) in
  {| appSnapshots := appSnapshots st; selectedSnapshots := selectedSnapshots st;
     renderedIds := renderedIds st; compareCount := count;
     compareDisabled := negb (Nat.eqb count 2); errorShown := errorShown st |}.

(** [resultsSection.innerHTML = '<div class="error-message">...</div>']:
    the snapshots container, and every checkbox in it, leaves the page. *)
Definition show_error (st : AppState) : AppState :=
  {| appSnapshots := appSnapshots st; selectedSnapshots := selectedSnapshots st;
     renderedIds := []; compareCount := compareCount st;
     compareDisabled := compareDisabled st; errorShown := true |}.

(** [runAnalysis()] with the form values [networkType], [codec],
    [parseFloat(blockingProbInput.value)] ([None] for [NaN]), the
    [Math.random()] values [rand] of [generateTrafficMatrix], and the new
    id [Date.now() + '-' + Math.floor(Math.random() * 1000)].  At two
    snapshots the [forEach] selects every stored id (the [change] event it
    dispatches adds the same id again) before [updateCompareButton]. *)
Definition runAnalysis (networkType codec : string) (blockingProb : option Q)
    (rand : nat -> Q) (id : string) (st : AppState) : AppState :=
  if Nat.leb 2 (length (appSnapshots st)) then show_error st
  else
    match blockingProb with
    | None => show_error st
    | Some bp =>
        if Qlt_bool bp (1 # 1000) || Qlt_bool (1 # 10) bp then show_error st
        else
          let snapshot :=
            {| snapId := id; snapNetworkType := networkType; snapCodec := codec;
               snapBlockingProb := bp;
               trafficData := App.calculateTrafficData networkType codec bp rand |} in
          let snaps := appSnapshots st ++ [snapshot] in
          let st1 :=
            {| appSnapshots := snaps; selectedSnapshots := selectedSnapshots st;
               renderedIds := renderedIds st ++ [id]; compareCount := compareCount st;
               compareDisabled := compareDisabled st; errorShown := errorShown st |} in
          if Nat.eqb (length snaps) 2 then
            updateCompareButton
              (set_selection (fold_left (fun sel s => {[snapId s]} ∪ sel) snaps ∅) st1)
          else st1
    end.

(** [clearSnapshots()] (its [clearAllSimulations] call acts on the
    simulator's state). *)
Definition clearSnapshots (st : AppState) : AppState :=
  updateCompareButton
    {| appSnapshots := []; selectedSnapshots := ∅; renderedIds := [];
       compareCount := compareCount st; compareDisabled := compareDisabled st;
       errorShown := false |}.

(** The [change] listener on [resultsSection] for the checkbox of
    snapshot [id]; only a checkbox present in the page can fire it. *)
Definition checkboxChange (id : string) (checked : bool) (st : AppState) : AppState :=
  if bool_decide (id ∈ renderedIds st) then
    updateCompareButton
      (set_selection (if checked then {[id]} ∪ selectedSnapshots st
                      else selectedSnapshots st ∖ {[id]}) st)
  else st.

Inductive AppEvent :=
| RunAnalysis (networkType codec : string) (blockingProb : option Q) (rand : nat -> Q)
    (id : string)
| ClearSnapshots
| CheckboxChange (id : string) (checked : bool).

Definition app_step (st : AppState) (ev : AppEvent) : AppState :=
  match ev with
  | RunAnalysis nt c bp rand id => runAnalysis nt c bp rand id st
  | ClearSnapshots => clearSnapshots st
  | CheckboxChange id checked => checkboxChange id checked st
  end.

Definition app_run (st : AppState) (evs : list AppEvent) : AppState :=
  fold_left app_step evs st.

(** How [compareSelected()] gets past its two guards: [Array.from] of
    the selection (the order of [elements] stands for insertion order; the
    outcome only depends on which ids are selected) and a [find] in
    [snapshots] for each of the first two ids. *)
Inductive CompareGuard := SelectTwoError | NotFoundError | CompareProceeds.

Definition find_snapshot (snaps : list Snapshot) (id : string) : option Snapshot :=
  find (fun s => String.eqb (snapId s) id) snaps.

Definition compareSelected_guard (st : AppState) : CompareGuard :=
  if negb (Nat.eqb (size (selectedSnapshots st)) 2) then SelectTwoError
  else
    let selectedIds := elements (selectedSnapshots st) in
    match selectedIds !! 0%nat ≫= find_snapshot (appSnapshots st),
          selectedIds !! 1%nat ≫= find_snapshot (appSnapshots st) with
    | Some _, Some _ => CompareProceeds
    | _, _ => NotFoundError
    end.

(** Consistency of the page state. *)
Definition app_ok (st : AppState) : Prop :=
  (length (appSnapshots st) <= 2)%nat /\
  Forall (fun s => 1 # 1000 <= snapBlockingProb s /\ snapBlockingProb s <= 1 # 10)
    (appSnapshots st) /\
  (forall id, id ∈ selectedSnapshots st -> In id (map snapId (appSnapshots st))) /\
  (forall id, In id (renderedIds st) -> In id (map snapId (appSnapshots st))) /\
  compareCount st = size (selectedSnapshots st) /\
  compareDisabled st = negb (Nat.eqb (size (selectedSnapshots st)) 2).

(** A fresh page, with the Compare button disabled (its state after
    [updateCompareButton] on an empty selection). *)
Definition app_initial : AppState :=
  {| appSnapshots := []; selectedSnapshots := ∅; renderedIds := [];
     compareCount := 0; compareDisabled := true; errorShown := false |}.

(* ------------------------------------------------------------------ *)
(** ** Snapshot section ids and the simulation log ([src/callsim.js]) *)
(* ------------------------------------------------------------------ *)

(** [s.replace(pattern, replacement)] with a string pattern: only the
    first occurrence is replaced. *)
Definition js_replace_first (pattern replacement s : string) : string :=
  match String.index 0 pattern s with
  | Some i =>
      String.append (String.substring 0 i s)
        (String.append replacement
           (String.substring (i + String.length pattern)
              (String.length s - (i + String.length pattern)) s))
  | None => s
  end.

(** The id of the section [runAnalysis] appends for a snapshot, and the
    snapshot id the [MutationObserver] and [initializeExistingSnapshots]
    read back from it. *)
Definition snapshot_section_id (id : string) : string := String.append "snapshot-" id.

Definition section_snapshot_id (sectionId : string) : string :=
  js_replace_first "snapshot-" "" sectionId.

(** A [simLog-<id>] element: the entries on the page, and the pending
    [batchUpdates]. *)
Record LogElement := {
  logEntries : list string;
  batchUpdates : list string
}.

(** [addLogEntry] queues the entry (and re-arms the 100 ms batch timer). *)
Definition addLogEntry (entry : string) (le : LogElement) : LogElement :=
  {| logEntries := logEntries le; batchUpdates := batchUpdates le ++ [entry] |}.

(** The batch timer: append the queued entries, then remove the oldest
    ones beyond [maxEntries = 50]. *)
Definition flushLog (le : LogElement) : LogElement :=
  let maxEntries := 50%nat in
  let entries := logEntries le ++ batchUpdates le in
  let entriesToRemove :=
    if Nat.ltb maxEntries (length entries) then (length entries - maxEntries)%nat else 0%nat in
  {| logEntries := skipn entriesToRemove entries; batchUpdates := [] |}.

(* ------------------------------------------------------------------ *)
(** ** Comparison of two analyses ([generateComparisonSummary] in app.js) *)
(* ------------------------------------------------------------------ *)

(** [a - b] and [a > 0] on numbers that may be [NaN] ([None]). *)
Definition js_sub (a b : option Q) : option Q := a ≫= fun x => b ≫= fun y => Some (x - y).

Definition js_gt0 (a : option Q) : bool :=
  match a with Some x => Qlt_bool 0 x | None => false end.

Record ComparisonMetrics := {
  bandwidthDifference : option Q;
  efficiencyDifference : Q;
  erlangsDifference : Q;
  moreEfficient : string;
  moreBandwidth : string;
  efficiencyRatio : Q;
  bandwidthRatio : option Q
}.

Record ComparisonSummary := {
  cmpFirst : SnapshotSummary;
  cmpSecond : SnapshotSummary;
  comparisons : ComparisonMetrics
}.

(** [None] when one of the two [generateSnapshotSummary] calls throws. *)
Definition generateComparisonSummary (snapshot1 snapshot2 : Snapshot) (w : World)
    : option ComparisonSummary :=
  match generateSnapshotSummary snapshot1 w, generateSnapshotSummary snapshot2 w with
  | Some summary1, Some summary2 =>
      let bandwidthDifference := js_sub (sumTotalBandwidth summary2) (sumTotalBandwidth summary1) in
      let efficiencyDifference := sumEfficiencyScore summary2 - sumEfficiencyScore summary1 in
      let erlangsDifference := sumTotalErlangs summary2 - sumTotalErlangs summary1 in
      Some {| cmpFirst := summary1; cmpSecond := summary2;
              comparisons :=
                {| bandwidthDifference := bandwidthDifference;
                   efficiencyDifference := efficiencyDifference;
                   erlangsDifference := erlangsDifference;
                   moreEfficient := if Qlt_bool 0 efficiencyDifference then "second" else "first";
                   moreBandwidth := if js_gt0 bandwidthDifference then "second" else "first";
                   efficiencyRatio :=
                     if Qlt_bool 0 (sumEfficiencyScore summary1)
                     then sumEfficiencyScore summary2 / sumEfficiencyScore summary1 else 0;
                   bandwidthRatio :=
                     if js_gt0 (sumTotalBandwidth summary1)
                     then sumTotalBandwidth summary2 ≫= fun y =>
                          sumTotalBandwidth summary1 ≫= fun x => Some (y / x)
                     else Some 0 |} |}
  | _, _ => None
  end.

(* ------------------------------------------------------------------ *)
(** ** The Gemini proxy ([POST /api/gemini] in server.js) *)
(* ------------------------------------------------------------------ *)

(** A body field read as a string ([None]: absent). *)
Definition js_truthy (field : option string) : bool :=
  match field with Some s => negb (String.eqb s "") | None => false end.

Definition gemini_url (apiKey cleanModel : string) : string :=
  String.append "https://generativelanguage.googleapis.com/v1beta/models/"
    (String.append cleanModel (String.append ":generateContent?key=" apiKey)).

(** What the handler does before any network access: answer 400, or
    [fetch] the URL with the prompt. *)
Inductive ProxyOutcome :=
| BadRequest
| ForwardRequest (url prompt : string).

Definition geminiProxy (apiKey model prompt : option string) : ProxyOutcome :=
  if negb (js_truthy apiKey) || negb (js_truthy model) || negb (js_truthy prompt) then BadRequest
  else
    match apiKey, model, prompt with
    | Some k, Some m, Some p => ForwardRequest (gemini_url k (js_replace_first "models/" "" m)) p
    | _, _, _ => BadRequest
    end.
(* ================================================================== *)
(** * Proofs *)
(* ================================================================== *)

(** ** Erlang-B: facts about the recurrence and the loop *)

Example erlangB_small : erlangB 1 (1#10) = 3%nat.
Proof. vm_compute. reflexivity. Qed.

Example erlangB_rec_small : erlangB_rec 1 3 == 1#16.
Proof. vm_compute. reflexivity. Qed.


Lemma Qnat_nonneg (n : nat) : 0 <= Qnat n.
Proof. unfold Qnat. change 0 with (inject_Z 0). rewrite <- Zle_Qle. lia. Qed.

Lemma Qnat_S_pos (k : nat) : 0 < Qnat (S k).
Proof. unfold Qnat. change 0 with (inject_Z 0). rewrite <- Zlt_Qlt. lia. Qed.

Lemma Qnat_S (k : nat) : Qnat (S k) == Qnat k + 1.
Proof. unfold Qnat. rewrite Nat2Z.inj_succ, <- Z.add_1_r, inject_Z_plus. reflexivity. Qed.

Lemma Qnat_le (i j : nat) : (i <= j)%nat -> Qnat i <= Qnat j.
Proof. intros H. unfold Qnat. rewrite <- Zle_Qle. lia. Qed.

(** One step of the recurrence, [x / (n + x)] with [x = E*B]. *)
Lemma step_nonneg (x n : Q) : 0 <= x -> 0 < n -> 0 <= x / (n + x).
Proof. intros Hx Hn. apply Qle_shift_div_l; lra. Qed.

Lemma step_mul (x n : Q) : 0 <= x -> 0 < n -> x / (n + x) * (n + x) == x.
Proof. intros Hx Hn. field. lra. Qed.

Lemma step_mono (x y n : Q) :
  0 <= x -> x <= y -> 0 < n -> x / (n + x) <= y / (n + y).
Proof.
  intros Hx Hxy Hn.
  pose proof (step_mul y n ltac:(lra) Hn) as Hc.
  pose proof (step_nonneg y n ltac:(lra) Hn) as Hc0.
  set (c := y / (n + y)) in *.
  apply Qle_shift_div_r; [lra|].
  assert (c <= 1).
  { apply Qnot_lt_le. intros Hlt. nra. }
  nra.
Qed.

Lemma erlangB_rec_nonneg (E : Q) (m : nat) : 0 <= E -> 0 <= erlangB_rec E m.
Proof.
  intros HE. induction m as [|m IH]; simpl; [lra|].
  apply step_nonneg; [apply Qmult_le_0_compat; assumption | apply Qnat_S_pos].
Qed.

Lemma erlangB_rec_mono (E1 E2 : Q) (m : nat) :
  0 <= E1 -> E1 <= E2 -> erlangB_rec E1 m <= erlangB_rec E2 m.
Proof.
  intros H1 H12. induction m as [|m IH]; simpl; [lra|].
  pose proof (erlangB_rec_nonneg E1 m H1).
  apply step_mono.
  - apply Qmult_le_0_compat; assumption.
  - apply Qmult_le_compat_nonneg; lra.
  - apply Qnat_S_pos.
Qed.

(** Carried traffic never exceeds the number of circuits:
    [E * (1 - B(E,m)) <= m]. *)
Lemma erlangB_rec_lower (E : Q) (m : nat) :
  0 < E -> E - Qnat m <= E * erlangB_rec E m.
Proof.
  intros HE. induction m as [|m IH].
  - simpl erlangB_rec. change (Qnat 0) with 0. lra.
  - simpl erlangB_rec.
    pose proof (erlangB_rec_nonneg E m ltac:(lra)) as Hb.
    set (b := erlangB_rec E m) in *.
    pose proof (Qnat_S m) as HS. pose proof (Qnat_S_pos m) as Hn.
    set (n := Qnat (S m)) in *.
    assert (Hx : 0 <= E * b) by (apply Qmult_le_0_compat; lra).
    pose proof (step_mul (E * b) n Hx Hn) as Hc.
    pose proof (step_nonneg (E * b) n Hx Hn) as Hc0.
    set (x := E * b) in *. set (c := x / (n + x)) in *.
    assert (Hd : E * (c * (n + x)) == E * x) by (rewrite Hc; reflexivity).
    assert (Hpos : 0 <= n * (n + x - E)) by (apply Qmult_le_0_compat; lra).
    assert (Hnx : 0 < n + x) by lra.
    apply Qnot_lt_le. intros Hlt.
    assert (0 < (E - n - E * c) * (n + x)) by (apply Qmult_lt_0_compat; lra).
    lra.
Qed.

Lemma erlangB_loop_spec (E p : Q) : forall (fuel k : nat),
  let r := erlangB_loop E p (erlangB_rec E k) (S k) fuel in
  ((S k <= r <= k + fuel)%nat /\ erlangB_rec E r <= p /\
     (forall i, (S k <= i < r)%nat -> p < erlangB_rec E i))
  \/ (r = 10000%nat /\ forall i, (S k <= i <= k + fuel)%nat -> p < erlangB_rec E i).
Proof.
  induction fuel as [|fuel IH]; intros k r; subst r; simpl erlangB_loop.
  - right. split; [reflexivity|]. intros i Hi. lia.
  - change ((E * erlangB_rec E k) / (Qnat (S k) + E * erlangB_rec E k))
      with (erlangB_rec E (S k)).
    destruct (Qle_bool (erlangB_rec E (S k)) p) eqn:Hb.
    + left. split; [lia|]. split; [apply Qle_bool_iff; exact Hb|].
      intros i Hi. lia.
    + assert (Hgt : p < erlangB_rec E (S k)).
      { apply Qnot_le_lt. intros Hle. apply Qle_bool_iff in Hle. congruence. }
      destruct (IH (S k)) as [(Hr & Hle & Hall) | (Hr & Hall)].
      * left. split; [lia|]. split; [exact Hle|].
        intros i Hi. destruct (Nat.eq_dec i (S k)) as [->|Hne]; [exact Hgt|].
        apply Hall. lia.
      * right. split; [exact Hr|].
        intros i Hi. destruct (Nat.eq_dec i (S k)) as [->|Hne]; [exact Hgt|].
        apply Hall. lia.
Qed.

Lemma cap_pos : (1 <= 10000)%nat.
Proof. apply Nat.leb_le. reflexivity. Qed.

(** What [erlangB] returns for a nonzero load: the least [m] in
    [1..10000] with [B(E,m) <= p], or the cap [10000] when there is none. *)
Lemma erlangB_char (E p : Q) :
  ~ E == 0 ->
  let m := erlangB E p in
  (1 <= m <= 10000)%nat /\
  (forall i, (1 <= i < m)%nat -> p < erlangB_rec E i) /\
  (erlangB_rec E m <= p \/
     (m = 10000%nat /\ forall i, (1 <= i <= 10000)%nat -> p < erlangB_rec E i)).
Proof.
  intros HE m. subst m. unfold erlangB.
  destruct (Qeq_bool E 0) eqn:Hz.
  { apply Qeq_bool_iff in Hz. contradiction. }
  destruct (erlangB_loop_spec E p 10000 0) as [(Hr & Hle & Hall) | (Hr & Hall)];
    change (erlangB_rec E 0) with 1 in *; rewrite ?Nat.add_0_l in *.
  - split; [lia|]. split; [exact Hall|]. left; exact Hle.
  - rewrite Hr. pose proof cap_pos. split; [lia|]. split.
    + intros i Hi. apply Hall. lia.
    + right. split; [reflexivity|]. exact Hall.
Qed.

Lemma erlangB_zero (p : Q) : erlangB 0 p = 0%nat.
Proof. reflexivity. Qed.

Lemma erlangB_zero_eq (E p : Q) : E == 0 -> erlangB E p = 0%nat.
Proof.
  intros HE. unfold erlangB.
  destruct (Qeq_bool E 0) eqn:Hz; [reflexivity|].
  apply Qeq_bool_iff in HE. congruence.
Qed.

Lemma Qnat_cap : Qnat 10000 == 10000.
Proof. reflexivity. Qed.

(** ** Claim C1: round trip of [erlangB] *)

(** C1 (amended). For every offered load [E > 0] and every target
    [p] in [0.001, 0.1], [m = erlangB E p] lies in [1..10000], every
    smaller circuit count [i < m] misses the target ([p < B(E,i)]), and
    either [B(E,m) <= p] or the search saturated: [m = 10000] and no
    circuit count up to 10000 meets the target.  Moreover
    [erlangB 0 p = 0]. *)
Theorem erlangB_roundtrip (E p : Q) :
  0 < E -> 1#1000 <= p -> p <= 1#10 ->
  let m := erlangB E p in
  (1 <= m <= 10000)%nat /\
  (forall i, (i < m)%nat -> p < erlangB_rec E i) /\
  (erlangB_rec E m <= p \/
     (m = 10000%nat /\ forall i, (i <= 10000)%nat -> p < erlangB_rec E i)) /\
  erlangB 0 p = 0%nat.
Proof.
  intros HE Hp1 Hp2 m.
  assert (HE0 : ~ E == 0) by (intros Heq; rewrite Heq in HE; discriminate).
  destruct (erlangB_char E p HE0) as (Hr & Hall & Hend). fold m in Hr, Hall, Hend.
  assert (H0 : p < erlangB_rec E 0) by (simpl; lra).
  split; [exact Hr|]. split; [|split; [|apply erlangB_zero]].
  - intros i Hi. destruct i as [|i]; [exact H0|]. apply Hall. lia.
  - destruct Hend as [Hle | (Hm & Hcap)]; [left; exact Hle|].
    right. split; [exact Hm|]. intros i Hi.
    destruct i as [|i]; [exact H0|]. apply Hcap. lia.
Qed.

Lemma erlangB_roundtrip_witness :
  (0 < 1 /\ 1#1000 <= 1#10 /\ 1#10 <= 1#10) /\
  (let m := erlangB 1 (1#10) in
   (1 <= m <= 10000)%nat /\
   (forall i, (i < m)%nat -> 1#10 < erlangB_rec 1 i) /\
   (erlangB_rec 1 m <= 1#10 \/
      (m = 10000%nat /\ forall i, (i <= 10000)%nat -> 1#10 < erlangB_rec 1 i)) /\
   erlangB 0 (1#10) = 0%nat).
Proof.
  split.
  - split; [reflexivity | split; discriminate].
  - apply erlangB_roundtrip; [reflexivity | discriminate | discriminate].
Defined.

(** C1 counterexample: with [E = 100000] Erlangs and [p = 0.1], no
    circuit count up to 10000 meets the target, [erlangB] returns the cap
    [10000] and [B(E,10000) > p]: the round trip [B(E,m) <= p] fails. *)
Lemma erlangB_roundtrip_cap_counterexample :
  erlangB 100000 (1#10) = 10000%nat /\
  ~ (erlangB_rec 100000 (erlangB 100000 (1#10)) <= 1#10).
Proof.
  assert (HE0 : ~ (100000 : Q) == 0) by discriminate.
  assert (Hbig : forall i, (i <= 10000)%nat -> 1#10 < erlangB_rec 100000 i).
  { intros i Hi.
    pose proof (erlangB_rec_lower 100000 i ltac:(reflexivity)) as Hl.
    pose proof (Qnat_le i 10000 Hi) as Hq. rewrite Qnat_cap in Hq. lra. }
  destruct (erlangB_char 100000 (1#10) HE0) as (Hr & _ & Hend).
  destruct Hend as [Hle | (Hm & _)].
  - exfalso. pose proof (Hbig _ (proj2 Hr)). lra.
  - split; [exact Hm|]. intros Hle. pose proof (Hbig _ (proj2 Hr)). lra.
Qed.

(** ** Claim C7: monotonicity of [erlangB] in the offered load *)

(** C7. For a fixed target [p] in [0.001, 0.1] and offered loads
    [0 <= E1 <= E2], [erlangB E1 p <= erlangB E2 p]. *)
Theorem erlangB_monotone_load (E1 E2 p : Q) :
  0 <= E1 -> E1 <= E2 -> 1#1000 <= p -> p <= 1#10 ->
  (erlangB E1 p <= erlangB E2 p)%nat.
Proof.
  intros H1 H12 Hp1 Hp2.
  destruct (Qeq_dec E1 0) as [Hz|Hnz].
  { rewrite (erlangB_zero_eq E1 p Hz). lia. }
  assert (HE2 : ~ E2 == 0) by (intros Heq; apply Hnz; lra).
  destruct (erlangB_char E1 p Hnz) as (Hr1 & Hall1 & _).
  destruct (erlangB_char E2 p HE2) as (Hr2 & _ & Hend2).
  destruct Hend2 as [Hle2 | (Hm2 & _)].
  - destruct (Nat.le_gt_cases (erlangB E1 p) (erlangB E2 p)) as [Hle|Hgt];
      [exact Hle|].
    exfalso.
    pose proof (Hall1 (erlangB E2 p) ltac:(lia)) as Hgt1.
    pose proof (erlangB_rec_mono E1 E2 (erlangB E2 p) H1 H12). lra.
  - rewrite Hm2. lia.
Qed.

Lemma erlangB_monotone_load_witness :
  (0 <= 1 /\ 1 <= 2 /\ 1#1000 <= 1#10 /\ 1#10 <= 1#10) /\
  (erlangB 1 (1#10) <= erlangB 2 (1#10))%nat.
Proof.
  split.
  - repeat split; discriminate.
  - apply erlangB_monotone_load; discriminate.
Defined.

(** ** Traffic model: shape of the generated link records *)

Lemma from_linkData_of nt c bp i j dm :
  from (linkData_of nt c bp i j dm) = nth i LOCATIONS "".
Proof. reflexivity. Qed.

Lemma to_linkData_of nt c bp i j dm :
  to (linkData_of nt c bp i j dm) = nth j LOCATIONS "".
Proof. reflexivity. Qed.

Lemma dailyMinutes_linkData_of nt c bp i j dm :
  dailyMinutes (linkData_of nt c bp i j dm) = dm.
Proof. reflexivity. Qed.

Lemma total_of_US : total_of "US" = 12822.
Proof. reflexivity. Qed.

Lemma total_of_China : total_of "China" = 28286.
Proof. reflexivity. Qed.

Lemma total_of_UK : total_of "UK" = 28000.
Proof. reflexivity. Qed.

(** When no off-diagonal entry is zero, the loops keep the six ordered
    pairs of distinct locations, in the order of the two loops. *)
Lemma trafficLinks_nonzero (M : list (list Q)) :
  (forall i j, (i < 3)%nat -> (j < 3)%nat -> i <> j -> ~ matrix_get M i j == 0) ->
  trafficLinks M =
    [(0, 1, matrix_get M 0 1); (0, 2, matrix_get M 0 2);
     (1, 0, matrix_get M 1 0); (1, 2, matrix_get M 1 2);
     (2, 0, matrix_get M 2 0); (2, 1, matrix_get M 2 1)]%nat.
Proof.
  intros Hnz. unfold trafficLinks. simpl.
  repeat match goal with
  | |- context [Qeq_bool (matrix_get M ?i ?j) 0] =>
      let H := fresh "H" in
      destruct (Qeq_bool (matrix_get M i j) 0) eqn:H;
      [apply Qeq_bool_iff in H; exfalso; exact (Hnz i j ltac:(lia) ltac:(lia) ltac:(lia) H) |]
  end.
  reflexivity.
Qed.

Lemma part001_entries_nonzero :
  forall i j, (i < 3)%nat -> (j < 3)%nat -> i <> j ->
  ~ matrix_get Part001.generateTrafficMatrix i j == 0.
Proof.
  intros i j Hi Hj Hij.
  destruct i as [|[|[|i]]]; destruct j as [|[|[|j]]]; try lia; vm_compute; discriminate.
Qed.

(** ** Claim C6: equal split preserves each origin's total *)

(** C6. In equal-split mode ([part_001]), for every origin location the
    [dailyMinutes] of the generated link records with that [from] add up
    exactly to the origin's [TOTAL_TRAFFIC], whatever the network type,
    codec and blocking probability. *)
Theorem equal_split_sum_per_origin (networkType codec : string)
    (blockingProb : Q) (origin : string) :
  In origin LOCATIONS ->
  sum_from origin (Part001.calculateTrafficData networkType codec blockingProb)
    == total_of origin.
Proof.
  intros Hin.
  unfold Part001.calculateTrafficData, calculateTrafficData_with.
  rewrite (trafficLinks_nonzero _ part001_entries_nonzero).
  unfold sum_from.
  simpl in Hin. destruct Hin as [<- | [<- | [<- | []]]];
    simpl; rewrite ?from_linkData_of; simpl;
    rewrite ?dailyMinutes_linkData_of;
    rewrite ?total_of_US, ?total_of_China, ?total_of_UK;
    vm_compute; reflexivity.
Qed.

Lemma equal_split_sum_per_origin_witness :
  In "US" LOCATIONS /\
  sum_from "US" (Part001.calculateTrafficData "pstn" "g711" (1#100)) == total_of "US".
Proof.
  split; [simpl; left; reflexivity|].
  apply equal_split_sum_per_origin. simpl. left. reflexivity.
Defined.

(** Every off-diagonal entry of the randomised matrix is positive when
    every draw of [Math.random()] lies in [[0, 1)]. *)
Lemma app_entries_pos (rand : nat -> Q) :
  (forall k, 0 <= rand k /\ rand k < 1) ->
  forall i j, (i < 3)%nat -> (j < 3)%nat -> i <> j ->
  0 < matrix_get (App.generateTrafficMatrix rand) i j.
Proof.
  intros Hr i j Hi Hj Hij.
  destruct i as [|[|[|i]]]; destruct j as [|[|[|j]]]; try lia;
    unfold matrix_get, App.generateTrafficMatrix, App.row; simpl;
    rewrite ?total_of_US, ?total_of_China, ?total_of_UK;
    match goal with |- context [rand ?k] => destruct (Hr k) end; lra.
Qed.

(** ** Claim C10: six positive links in randomised mode *)

(** C10. For every network type, codec, blocking probability and every
    sequence of [Math.random()] draws in [[0, 1)], [calculateTrafficData]
    ([app.js]) returns exactly six link records, one per ordered pair of
    distinct locations among US, China and UK, each with [from <> to] and
    [dailyMinutes > 0]. *)
Theorem random_split_six_positive_links (networkType codec : string)
    (blockingProb : Q) (rand : nat -> Q) :
  (forall k, 0 <= rand k /\ rand k < 1) ->
  let links := App.calculateTrafficData networkType codec blockingProb rand in
  length links = 6%nat /\
  map (fun l => (from l, to l)) links =
    [("US", "China"); ("US", "UK"); ("China", "US");
     ("China", "UK"); ("UK", "US"); ("UK", "China")] /\
  Forall (fun l => from l <> to l /\ 0 < dailyMinutes l) links.
Proof.
  intros Hr links. subst links.
  pose proof (app_entries_pos rand Hr) as Hpos.
  unfold App.calculateTrafficData, calculateTrafficData_with.
  assert (Hnz : forall i j, (i < 3)%nat -> (j < 3)%nat -> i <> j ->
            ~ matrix_get (App.generateTrafficMatrix rand) i j == 0).
  { intros i j Hi Hj Hij Heq. pose proof (Hpos i j Hi Hj Hij). lra. }
  rewrite (trafficLinks_nonzero _ Hnz).
  split; [reflexivity|]. split.
  - reflexivity.
  - repeat constructor; rewrite ?from_linkData_of, ?to_linkData_of,
      ?dailyMinutes_linkData_of; try discriminate; apply Hpos; lia.
Qed.

Lemma random_split_six_positive_links_witness :
  (forall k, 0 <= (fun _ : nat => 1#2) k /\ (fun _ : nat => 1#2) k < 1) /\
  (let links := App.calculateTrafficData "voip" "g729a" (1#100) (fun _ => 1#2) in
   length links = 6%nat /\
   map (fun l => (from l, to l)) links =
     [("US", "China"); ("US", "UK"); ("China", "US");
      ("China", "UK"); ("UK", "US"); ("UK", "China")] /\
   Forall (fun l => from l <> to l /\ 0 < dailyMinutes l) links).
Proof.
  split.
  - intros k. split; [discriminate | reflexivity].
  - apply random_split_six_positive_links. intros k. split; [discriminate | reflexivity].
Defined.

(** ** Simulator: the heap invariant *)

Lemma heap_clearSimulation s w : heap (clearSimulation s w) = heap w.
Proof. reflexivity. Qed.

Lemma heap_register_links s links i w :
  heap (register_links s links i w) = heap w.
Proof.
  revert i w. induction links as [|l links IH]; intros i w; simpl; [reflexivity|].
  rewrite IH. reflexivity.
Qed.

Lemma heap_ok_insert w r d h :
  heap_ok w -> (0 <= activeCalls d)%Z -> heap h = <[r := d]> (heap w) -> heap_ok h.
Proof.
  intros Hw Hd Hh. unfold heap_ok. rewrite Hh. apply map_Forall_insert_2; assumption.
Qed.

Lemma heap_ok_lookup w r d : heap_ok w -> heap w !! r = Some d -> (0 <= activeCalls d)%Z.
Proof. intros Hw Hr. exact (map_Forall_lookup_1 _ _ _ _ Hw Hr). Qed.

Lemma update_heap_ok s now w :
  heap_ok w -> heap_ok (updateSimulationMetrics s now w).
Proof.
  intros Hw. unfold updateSimulationMetrics.
  destruct (simulationData w !! s) as [r|]; [|exact Hw].
  destruct (heap w !! r) as [d|] eqn:Hd; [|exact Hw].
  pose proof (heap_ok_lookup w r d Hw Hd).
  repeat case_match; try exact Hw;
    (eapply heap_ok_insert; [exact Hw | | reflexivity]; exact H).
Qed.

Lemma stop_heap_ok s now w : heap_ok w -> heap_ok (stopSimulation s now w).
Proof.
  intros Hw. unfold stopSimulation.
  destruct (negb (has_dom s w)); [exact Hw|].
  apply update_heap_ok. exact Hw.
Qed.

Lemma start_heap_ok s now w : heap_ok w -> heap_ok (startSimulation s now w).
Proof.
  intros Hw. unfold startSimulation.
  destruct (negb (has_dom s w)); [exact Hw|].
  set (w1 := if simulationRunning w && _ then _ else w).
  assert (H1 : heap_ok w1).
  { subst w1. repeat case_match; try exact Hw. apply stop_heap_ok. exact Hw. }
  clearbody w1.
  set (w2 := set_flags true (Some s) w1).
  assert (H2 : heap_ok w2) by exact H1.
  clearbody w2.
  destruct (find _ (snapshots w2)) as [snap|]; [|exact H2].
  destruct (simulationData w2 !! s) as [r|]; [|exact H2].
  destruct (heap w2 !! r) as [d|]; [|exact H2].
  unfold schedule, register, heap_ok. cbn [heap set_timers].
  rewrite heap_register_links. cbn [heap set_heap].
  apply map_Forall_insert_2; [cbn; lia | exact H2].
Qed.

Lemma spawn_heap_ok s link dr w : heap_ok w -> heap_ok (spawnDynamicCall s link dr w).
Proof.
  intros Hw. unfold spawnDynamicCall.
  destruct (simulationData w !! s) as [r|]; [|exact Hw].
  destruct (heap w !! r) as [d|] eqn:Hd; [|exact Hw].
  pose proof (heap_ok_lookup w r d Hw Hd) as Ha.
  destruct (Qlt_bool _ _); [exact Hw|].
  destruct (js_lt _ _).
  - eapply heap_ok_insert; [exact Hw | | reflexivity]. exact Ha.
  - eapply heap_ok_insert; [exact Hw | | reflexivity]. cbn. lia.
Qed.

Lemma departure_heap_ok r bw w : heap_ok w -> heap_ok (departure r bw w).
Proof.
  intros Hw. unfold departure.
  destruct (heap w !! r) as [d|] eqn:Hd; [|exact Hw].
  destruct (Z.ltb 0 (activeCalls d)) eqn:Hlt; [|exact Hw].
  apply Z.ltb_lt in Hlt.
  eapply heap_ok_insert; [exact Hw | | reflexivity]. cbn. lia.
Qed.

Lemma fire_heap_ok h t now dr w : heap_ok w -> heap_ok (fireTimer h t now dr w).
Proof.
  intros Hw. unfold fireTimer.
  set (w0 := if is_timeout t then _ else w).
  assert (H0 : heap_ok w0) by (subst w0; destruct (is_timeout t); exact Hw).
  clearbody w0.
  destruct t.
  - destruct (Qlt_bool _ _); [apply spawn_heap_ok|]; exact H0.
  - apply update_heap_ok. exact H0.
  - apply stop_heap_ok. exact H0.
  - exact H0.
  - apply departure_heap_ok. exact H0.
Qed.

Lemma initialize_heap_ok s w : heap_ok w -> heap_ok (initializeSimulation s w).
Proof.
  intros Hw. unfold initializeSimulation.
  destruct (negb (has_dom s w)); [exact Hw|].
  set (w1 := match simulationData w !! s with Some _ => _ | None => w end).
  assert (H1 : heap_ok w1) by (subst w1; case_match; exact Hw).
  clearbody w1. unfold heap_ok. cbn [heap].
  apply map_Forall_insert_2; [cbn; lia | exact H1].
Qed.

Lemma step_heap_ok w ev : heap_ok w -> heap_ok (step w ev).
Proof.
  intros Hw. destruct ev as [s|s now|s now|h now dr|]; cbn [step].
  - apply initialize_heap_ok. exact Hw.
  - apply start_heap_ok. exact Hw.
  - apply stop_heap_ok. exact Hw.
  - destruct (liveTimers w !! h); [apply fire_heap_ok|]; exact Hw.
  - exact Hw.
Qed.

(** ** Simulator: concrete runs *)

(** C8 (code_bug): the "Final metrics update" of [stopSimulation] goes
    through the 500 ms throttle of [updateSimulationMetrics].  In
    [trace_stop_after_push] the last push was at 4 s and Stop comes at
    4.3 s, so the final update is skipped: the page keeps showing
    0 active calls while the simulation object holds 2. *)
Lemma final_metrics_throttled :
  let w := run demo_world trace_stop_after_push in
  simulationRunning w = false /\
  option_map activeCalls (getSimulationMetrics demo_id w) = Some 2%Z /\
  option_map lastUpdateTime (getSimulationMetrics demo_id w) = Some (Some 4000) /\
  option_map shownActiveCalls (display w !! demo_id) = Some 0%Z.
Proof. vm_compute. repeat split; reflexivity. Qed.

(** C3 (code_bug): Stop leaves the call-end timeouts of
    [spawnDynamicCall] live, since they are never put in
    [window.simulationTimers].  After the stop at 5 s the registry is
    empty but timeout 9 still holds the call accepted at 4.2 s; when it
    fires, [activeCalls] of the stopped simulation drops from 1 to 0. *)
Lemma departure_fires_after_stop :
  let w := run demo_world trace_call_then_stop in
  simulationRunning w = false /\
  simulationTimers w = ∅ /\
  option_map activeCalls (getSimulationMetrics demo_id w) = Some 1%Z /\
  option_map is_timeout (liveTimers w !! 9%nat) = Some true /\
  option_map activeCalls
    (getSimulationMetrics demo_id (step w (EvFire 9 184202 accept_draws))) = Some 0%Z.
Proof. vm_compute. repeat split; reflexivity. Qed.

(** C5 (code_bug): [startSimulation] sets [window.simulationRunning] and
    [window.currentSimulationId] before it looks the snapshot up, so an
    aborted start (no entry in [window.snapshots]) leaves them set, with
    no timer behind them. *)
Lemma start_without_snapshot_sets_flags :
  let w0 := run world_without_snapshot [EvInitialize demo_id] in
  let w1 := step w0 (EvStart demo_id 0) in
  simulationRunning w0 = false /\ currentSimulationId w0 = None /\
  simulationRunning w1 = true /\ currentSimulationId w1 = Some demo_id /\
  liveTimers w1 = ∅ /\ simulationTimers w1 = ∅.
Proof. vm_compute. repeat split; reflexivity. Qed.

(** C2 (code bug): [spawnDynamicCall] accepts an arrival without
    comparing [activeCalls] with [maxConcurrentCalls], although its comment
    says "Check if we can accept more calls".  In a 10-second run the
    arrival intervals fire too rarely to fill a link, but the auto-stop
    does not always end the run.  In [trace_leak] the results section is
    replaced while the simulation runs.  At 10 s the auto-stop timeout
    fires, and [stopSimulation] finds no elements and returns before its
    "Clear all timers for this simulation".  [simulationRunning] stays
    true, and the China → US interval stays live and registered.  It keeps
    bringing in accepted calls: 16 calls are up while every link allows at
    most 15. *)
Theorem autostop_leak_exceeds_capacity :
  let w := run demo_world trace_leak in
  liveTimers w !! 7%nat = None /\
  liveTimers w !! 2%nat = Some (ArrivalTimer demo_id demo_sim_link) /\
  simulationTimers w !! String.append demo_id "-2" = Some 2%nat /\
  simulationRunning w = true /\ currentSimulationId w = Some demo_id /\
  option_map activeCalls (getSimulationMetrics demo_id w) = Some 16%Z /\
  option_map (fun d => map maxConcurrentCalls (simLinks d)) (getSimulationMetrics demo_id w)
    = Some [15; 15; 15; 15; 15; 15]%Z.
Proof. vm_compute. repeat split; reflexivity. Qed.

(** ** Simulator: the acceptance decision *)



(** [demo_sim_link] is the third link [startSimulation] builds for
    [demo_snapshot]. *)
Lemma demo_sim_link_of_snapshot :
  nth_error (map (simLink_of demo_snapshot (calculateDynamicSimulationParams demo_snapshot))
                 (trafficData demo_snapshot)) 2 = Some demo_sim_link.
Proof. vm_compute. reflexivity. Qed.






(** C9: every event keeps [activeCalls] non-negative in every simulation
    object: acceptance adds one, blocking and metrics leave it, a call end
    subtracts one only from a positive count, and (re)initialisation and
    start reset it to 0. *)
Theorem active_calls_nonneg w evs (Hw : heap_ok w) :
  forall r d, heap (run w evs) !! r = Some d -> (0 <= activeCalls d)%Z.
Proof.
  intros r d Hr. apply (heap_ok_lookup (run w evs) r d); [|exact Hr].
  clear Hr. unfold run. revert w Hw. induction evs as [|ev evs IH]; intros w Hw; simpl.
  - exact Hw.
  - apply IH. apply step_heap_ok. exact Hw.
Qed.

Lemma active_calls_nonneg_witness :
  heap_ok demo_world /\
  (forall r d, heap (run demo_world trace_leak) !! r = Some d -> (0 <= activeCalls d)%Z).
Proof.
  assert (H0 : heap_ok demo_world) by apply map_Forall_empty.
  split; [exact H0 | exact (active_calls_nonneg demo_world trace_leak H0)].
Defined.

(** ** Further properties of the traffic model *)

Lemma app_matrix_entries (rand : nat -> Q) :
  let M := App.generateTrafficMatrix rand in
  matrix_get M 0 1 = 12822 * ((3 # 10) + rand 0%nat * (4 # 10)) /\
  matrix_get M 0 2 = 12822 * (1 - ((3 # 10) + rand 0%nat * (4 # 10))) /\
  matrix_get M 1 0 = 28286 * ((3 # 10) + rand 1%nat * (4 # 10)) /\
  matrix_get M 1 2 = 28286 * (1 - ((3 # 10) + rand 1%nat * (4 # 10))) /\
  matrix_get M 2 0 = 28000 * ((3 # 10) + rand 2%nat * (4 # 10)) /\
  matrix_get M 2 1 = 28000 * (1 - ((3 # 10) + rand 2%nat * (4 # 10))).
Proof.
  intros M. subst M.
  unfold matrix_get, App.generateTrafficMatrix, App.row; simpl;
    rewrite ?total_of_US, ?total_of_China, ?total_of_UK.
  repeat split; reflexivity.
Qed.

Lemma app_trafficLinks (rand : nat -> Q) :
  (forall k, 0 <= rand k /\ rand k < 1) ->
  let M := App.generateTrafficMatrix rand in
  trafficLinks M =
    [(0, 1, matrix_get M 0 1); (0, 2, matrix_get M 0 2);
     (1, 0, matrix_get M 1 0); (1, 2, matrix_get M 1 2);
     (2, 0, matrix_get M 2 0); (2, 1, matrix_get M 2 1)]%nat.
Proof.
  intros Hr M. apply trafficLinks_nonzero.
  intros i j Hi Hj Hij Heq. pose proof (app_entries_pos rand Hr i j Hi Hj Hij). subst M. lra.
Qed.

Lemma Qlt_bool_true (a b : Q) : Qlt_bool a b = true <-> a < b.
Proof.
  unfold Qlt_bool. rewrite negb_true_iff. split.
  - intros H. apply Qnot_le_lt. intros H'. apply Qle_bool_iff in H'. congruence.
  - intros H. destruct (Qle_bool b a) eqn:E; [|reflexivity].
    apply Qle_bool_iff in E. lra.
Qed.

Lemma Qlt_bool_false (a b : Q) : Qlt_bool a b = false <-> b <= a.
Proof.
  unfold Qlt_bool. rewrite negb_false_iff. apply Qle_bool_iff.
Qed.

(** With the randomised split of [src/app.js], as with the equal split,
    the link records leaving each location carry exactly its total daily
    minutes, whatever [Math.random()] returns: the two weights of a row
    add up to 1. *)
Theorem random_split_sum_per_origin (networkType codec : string) (blockingProb : Q)
    (rand : nat -> Q) (origin : string) :
  (forall k, 0 <= rand k /\ rand k < 1) -> In origin LOCATIONS ->
  sum_from origin (App.calculateTrafficData networkType codec blockingProb rand)
    == total_of origin.
Proof.
  intros Hr Hin.
  unfold App.calculateTrafficData, calculateTrafficData_with.
  rewrite (app_trafficLinks rand Hr).
  destruct (app_matrix_entries rand) as (E01 & E02 & E10 & E12 & E20 & E21).
  unfold sum_from.
  simpl in Hin. destruct Hin as [<- | [<- | [<- | []]]];
    simpl; rewrite ?from_linkData_of; simpl;
    rewrite ?dailyMinutes_linkData_of;
    rewrite ?E01, ?E02, ?E10, ?E12, ?E20, ?E21;
    rewrite ?total_of_US, ?total_of_China, ?total_of_UK; ring.
Qed.

Lemma random_split_sum_per_origin_witness :
  sum_from "China" (App.calculateTrafficData "pstn" "g711" (1 # 100) (fun _ => 1 # 4))
    == 28286.
Proof.
  apply random_split_sum_per_origin.
  - intros k. split; [discriminate | reflexivity].
  - simpl. tauto.
Defined.

(** Each link of the randomised split carries between 30% and 70% of its
    origin's total daily minutes. *)
Theorem random_split_share_bounds (networkType codec : string) (blockingProb : Q)
    (rand : nat -> Q) :
  (forall k, 0 <= rand k /\ rand k < 1) ->
  Forall (fun l => (3 # 10) * total_of (from l) <= dailyMinutes l /\
                   dailyMinutes l <= (7 # 10) * total_of (from l))
    (App.calculateTrafficData networkType codec blockingProb rand).
Proof.
  intros Hr.
  unfold App.calculateTrafficData, calculateTrafficData_with.
  rewrite (app_trafficLinks rand Hr).
  destruct (app_matrix_entries rand) as (E01 & E02 & E10 & E12 & E20 & E21).
  destruct (Hr 0%nat), (Hr 1%nat), (Hr 2%nat).
  rewrite List.Forall_forall. intros l Hl. simpl in Hl.
  repeat destruct Hl as [<- | Hl]; try contradiction;
    rewrite ?from_linkData_of, ?dailyMinutes_linkData_of; simpl;
    rewrite ?E01, ?E02, ?E10, ?E12, ?E20, ?E21, ?total_of_US, ?total_of_China, ?total_of_UK;
    lra.
Qed.

Lemma random_split_share_bounds_witness :
  Forall (fun l => (3 # 10) * total_of (from l) <= dailyMinutes l /\
                   dailyMinutes l <= (7 # 10) * total_of (from l))
    (App.calculateTrafficData "voip" "g729a" (5 # 100) (fun _ => 9 # 10)).
Proof.
  apply random_split_share_bounds.
  intros k. split; [discriminate | reflexivity].
Defined.

Lemma in_calculateTrafficData_with M nt c bp l :
  In l (calculateTrafficData_with M nt c bp) ->
  exists i j dm, l = linkData_of nt c bp i j dm.
Proof.
  unfold calculateTrafficData_with. intros Hin. apply in_map_iff in Hin.
  destruct Hin as [[[i j] dm] [<- _]]. exists i, j, dm. reflexivity.
Qed.

(** For every traffic matrix, each PSTN link record gets the least number
    of T1 trunks (24 circuits each) that holds its required circuits, and a
    bandwidth of 1.544 Mbps per trunk. *)
Theorem pstn_t1_count_minimal (trafficMatrix : list (list Q)) (codec : string)
    (blockingProb : Q) :
  Forall (fun l => match extra l with
                   | PstnExtra requiredCircuits t1Count bandwidthMbps =>
                       (24 * (t1Count - 1) < Z.of_nat requiredCircuits <= 24 * t1Count)%Z /\
                       bandwidthMbps == inject_Z t1Count * (1544 # 1000)
                   | VoipExtra _ _ _ _ _ => False
                   end)
    (calculateTrafficData_with trafficMatrix "pstn" codec blockingProb).
Proof.
  apply List.Forall_forall. intros l Hin.
  destruct (in_calculateTrafficData_with _ _ _ _ _ Hin) as (i & j & dm & ->).
  unfold linkData_of. replace (String.eqb "pstn" "pstn") with true by reflexivity.
  cbn [extra].
  set (rc := erlangB (dm * (17 # 100) / 60) blockingProb).
  set (x := Qnat rc / T1_CHANNELS).
  pose proof (Qle_ceiling x) as Hup. pose proof (Qceiling_lt x) as Hlo.
  assert (Hx : x * 24 == Qnat rc) by (unfold x, T1_CHANNELS; field).
  split; [split|].
  - rewrite Zlt_Qlt, inject_Z_mult. fold (Qnat rc).
    unfold Z.sub in *. rewrite inject_Z_plus, inject_Z_opp in *.
    change (inject_Z 1) with 1 in *. change (inject_Z 24) with 24. lra.
  - rewrite Zle_Qle, inject_Z_mult. fold (Qnat rc). change (inject_Z 24) with 24. lra.
  - reflexivity.
Qed.

Lemma busyHourErlangs_linkData_of nt c bp i j dm :
  busyHourErlangs (linkData_of nt c bp i j dm) = dm * (17 # 100) / 60.
Proof. reflexivity. Qed.

Lemma link_bandwidth_voip nt c bp i j dm :
  String.eqb nt "pstn" = false ->
  link_bandwidth nt (linkData_of nt c bp i j dm) =
  option_map (fun cb => dm * (17 # 100) / 60 * (cb + HEADER_BANDWIDTH) / 1000)
             (CODEC_BANDWIDTHS !! c).
Proof.
  intros Hnt. unfold link_bandwidth, linkData_of. rewrite Hnt. cbn [extra].
  destruct (CODEC_BANDWIDTHS !! c); reflexivity.
Qed.

Lemma codec_bandwidths_nonneg : map_Forall (fun _ v => 0 <= v) CODEC_BANDWIDTHS.
Proof.
  unfold CODEC_BANDWIDTHS.
  repeat apply map_Forall_insert_2; try apply map_Forall_empty; discriminate.
Qed.

Lemma sum_erlangs_cons l links :
  sum_erlangs (l :: links) = busyHourErlangs l + sum_erlangs links.
Proof. reflexivity. Qed.

Lemma protocol_fold_some nt k links :
  Forall (fun l => link_bandwidth nt l = Some (busyHourErlangs l * k / 1000)) links ->
  forall a b,
  let r := fold_left (fun '(calls, bw) link =>
                        (calls + busyHourErlangs link, js_add bw (link_bandwidth nt link)))
                     links (a, Some b) in
  (fst r == a + sum_erlangs links) /\
  (exists z, snd r = Some z /\ z == b + sum_erlangs links * k / 1000).
Proof.
  induction 1 as [|l links Hl Hrest IH]; intros a b r; subst r.
  - cbn [fold_left fst snd]. unfold sum_erlangs. cbn [fold_right].
    split; [ring|]. exists b. split; [reflexivity|]. field.
  - cbn [fold_left]. rewrite Hl. cbn [js_add mbind option_bind].
    destruct (IH (a + busyHourErlangs l) (b + busyHourErlangs l * k / 1000))
      as [Hx (z & Hy & Hz)].
    rewrite sum_erlangs_cons. split.
    + rewrite Hx. ring.
    + exists z. split; [exact Hy|]. rewrite Hz. field.
Qed.

Lemma protocol_fold_nan nt links :
  Forall (fun l => link_bandwidth nt l = None) links ->
  forall a y, links <> [] ->
  snd (fold_left (fun '(calls, bw) link =>
                    (calls + busyHourErlangs link, js_add bw (link_bandwidth nt link)))
                 links (a, y)) = None.
Proof.
  intros Hall. induction Hall as [|l links Hl Hrest IH]; intros a y Hne; [congruence|].
  simpl. rewrite Hl.
  assert (Hn : js_add y None = None) by (destruct y; reflexivity). rewrite Hn.
  destruct links as [|l' links'].
  - reflexivity.
  - apply IH. discriminate.
Qed.

Lemma app_calculateTrafficData_explicit nt c bp rand :
  (forall k, 0 <= rand k /\ rand k < 1) ->
  let M := App.generateTrafficMatrix rand in
  App.calculateTrafficData nt c bp rand =
    [linkData_of nt c bp 0 1 (matrix_get M 0 1); linkData_of nt c bp 0 2 (matrix_get M 0 2);
     linkData_of nt c bp 1 0 (matrix_get M 1 0); linkData_of nt c bp 1 2 (matrix_get M 1 2);
     linkData_of nt c bp 2 0 (matrix_get M 2 0); linkData_of nt c bp 2 1 (matrix_get M 2 1)].
Proof.
  intros Hr M. unfold App.calculateTrafficData, calculateTrafficData_with.
  rewrite (app_trafficLinks rand Hr). reflexivity.
Qed.

Lemma app_sum_erlangs nt c bp rand :
  (forall k, 0 <= rand k /\ rand k < 1) ->
  sum_erlangs (App.calculateTrafficData nt c bp rand) == 69108 * (17 # 100) / 60.
Proof.
  intros Hr. rewrite (app_calculateTrafficData_explicit nt c bp rand Hr).
  destruct (app_matrix_entries rand) as (E01 & E02 & E10 & E12 & E20 & E21).
  unfold sum_erlangs. cbn [fold_right]. rewrite !busyHourErlangs_linkData_of.
  rewrite E01, E02, E10, E12, E20, E21. field.
Qed.

(** For VoIP with a codec of [CODEC_BANDWIDTHS], the efficiency score of
    [calculateProtocolEfficiency] on the randomised traffic data is
    [1000 / (codecBandwidth + 16)] calls per Mbps (12.5 for G.711, 41.7
    for G.729a), whatever the random split; for any other codec the total
    bandwidth is [NaN] and the score stays 0. *)
Theorem voip_efficiency_score (networkType codec : string) (blockingProb : Q)
    (rand : nat -> Q) :
  (forall k, 0 <= rand k /\ rand k < 1) -> String.eqb networkType "pstn" = false ->
  let m := calculateProtocolEfficiency
             (App.calculateTrafficData networkType codec blockingProb rand) networkType codec in
  match CODEC_BANDWIDTHS !! codec with
  | Some codecBandwidth => pmEfficiencyScore m == 1000 / (codecBandwidth + 16)
  | None => pmTotalBandwidth m = None /\ pmEfficiencyScore m = 0
  end.
Proof.
  intros Hr Hnt m. subst m. unfold calculateProtocolEfficiency.
  pose proof (app_sum_erlangs networkType codec blockingProb rand Hr) as HS.
  set (links := App.calculateTrafficData networkType codec blockingProb rand) in *.
  assert (Hlinks : forall l, In l links ->
            exists i j dm, l = linkData_of networkType codec blockingProb i j dm).
  { intros l Hl. apply (in_calculateTrafficData_with _ _ _ _ _ Hl). }
  assert (HH : HEADER_BANDWIDTH == 16) by reflexivity.
  destruct (CODEC_BANDWIDTHS !! codec) as [cb|] eqn:Hcb.
  - assert (Hcb0 : 0 <= cb) by exact (map_Forall_lookup_1 _ _ _ _ codec_bandwidths_nonneg Hcb).
    assert (Hall : Forall (fun l => link_bandwidth networkType l =
                                    Some (busyHourErlangs l * (cb + HEADER_BANDWIDTH) / 1000)) links).
    { apply List.Forall_forall. intros l Hl. destruct (Hlinks l Hl) as (i & j & dm & ->).
      rewrite link_bandwidth_voip, Hcb by exact Hnt. reflexivity. }
    destruct (protocol_fold_some networkType (cb + HEADER_BANDWIDTH) links Hall 0 0)
      as [Hx (z & Hy & Hz)].
    set (r := fold_left _ links (0, Some 0)) in *.
    destruct r as [x y]. cbn [fst snd] in Hx, Hy. subst y.
    cbn [pmEfficiencyScore score_of].
    assert (Hz0 : 0 < z).
    { rewrite Hz, HS, HH.
      assert (E : 0 + 69108 * (17 # 100) / 60 * (cb + 16) / 1000
                  == 69108 * (17 # 100) / 60 / 1000 * cb + 69108 * (17 # 100) / 60 * 16 / 1000)
        by field.
      rewrite E.
      apply Qlt_le_trans with (0 + 69108 * (17 # 100) / 60 * 16 / 1000); [reflexivity|].
      apply Qplus_le_compat; [apply Qmult_le_0_compat; [discriminate|exact Hcb0] | apply Qle_refl]. }
    apply Qlt_bool_true in Hz0. rewrite Hz0.
    assert (Hk : ~ cb + 16 == 0) by (intro E; lra).
    rewrite Hx, Hz, HS, HH. field. exact Hk.
  - assert (Hall : Forall (fun l => link_bandwidth networkType l = None) links).
    { apply List.Forall_forall. intros l Hl. destruct (Hlinks l Hl) as (i & j & dm & ->).
      rewrite link_bandwidth_voip, Hcb by exact Hnt. reflexivity. }
    assert (Hne : links <> []).
    { subst links. rewrite (app_calculateTrafficData_explicit _ _ _ _ Hr). discriminate. }
    pose proof (protocol_fold_nan networkType links Hall 0 (Some 0) Hne) as Hn.
    set (r := fold_left _ links (0, Some 0)) in *.
    destruct r as [x y]. cbn [snd] in Hn. subst y. split; reflexivity.
Qed.

Lemma voip_efficiency_score_witness :
  pmEfficiencyScore
    (calculateProtocolEfficiency (App.calculateTrafficData "voip" "g711" (1 # 100) (fun _ => 1 # 2))
       "voip" "g711") == 1000 / (64 + 16).
Proof.
  exact (voip_efficiency_score "voip" "g711" (1 # 100) (fun _ => 1 # 2)
           (fun _ => conj (Qlt_le_weak 0 (1 # 2) eq_refl) eq_refl) eq_refl).
Defined.

(** For a snapshot whose traffic data was built by [calculateTrafficData],
    [generateSnapshotSummary] never throws, in any page state (with or
    without simulation data): it reports the six links, the fixed
    69,108 daily minutes and their [69108 * 0.17 / 60] busy-hour Erlangs,
    whatever the random split. *)
Theorem app_snapshot_summary_totals (s : Snapshot) (w : World) (rand : nat -> Q) :
  (forall k, 0 <= rand k /\ rand k < 1) ->
  trafficData s = App.calculateTrafficData (snapNetworkType s) (snapCodec s) (snapBlockingProb s) rand ->
  exists r, generateSnapshotSummary s w = Some r /\
    sumTotalDailyMinutes r == 69108 /\
    sumTotalErlangs r == 69108 * (17 # 100) / 60 /\
    sumLinkCount r = 6%nat.
Proof.
  intros Hr Htd. unfold generateSnapshotSummary. rewrite Htd.
  rewrite (app_calculateTrafficData_explicit _ _ _ _ Hr).
  destruct (app_matrix_entries rand) as (E01 & E02 & E10 & E12 & E20 & E21).
  destruct (Z.ltb 0 _); (eexists; split; [reflexivity|]);
    cbn [sumTotalDailyMinutes sumTotalErlangs sumLinkCount fold_left length];
    rewrite ?dailyMinutes_linkData_of, ?busyHourErlangs_linkData_of;
    rewrite E01, E02, E10, E12, E20, E21; (split; [ring | split; [field | reflexivity]]).
Qed.

Lemma app_snapshot_summary_totals_witness :
  exists r, generateSnapshotSummary demo_snapshot demo_world = Some r /\
    sumTotalDailyMinutes r == 69108 /\
    sumTotalErlangs r == 69108 * (17 # 100) / 60 /\
    sumLinkCount r = 6%nat.
Proof.
  apply (app_snapshot_summary_totals demo_snapshot demo_world (fun _ => 3 # 5)).
  - intros _. split; [apply Qlt_le_weak|]; reflexivity.
  - reflexivity.
Defined.

(** Raising the blocking target never asks for more circuits: for a
    nonzero load, [erlangB] is antitone in the target probability. *)
Theorem erlangB_antitone_target (E p1 p2 : Q) :
  ~ E == 0 -> p1 <= p2 -> (erlangB E p2 <= erlangB E p1)%nat.
Proof.
  intros HE Hp.
  destruct (erlangB_char E p1 HE) as (Hb1 & Hlt1 & Hend1).
  destruct (erlangB_char E p2 HE) as (Hb2 & Hlt2 & _).
  apply Nat.nlt_ge. intros Hm.
  destruct Hend1 as [Hle | (Hcap & _)].
  - assert (p2 < erlangB_rec E (erlangB E p1)) by (apply Hlt2; lia). lra.
  - lia.
Qed.

Lemma erlangB_antitone_target_witness :
  (erlangB 10 (1 # 10) <= erlangB 10 (1 # 100))%nat.
Proof.
  apply (erlangB_antitone_target 10 (1 # 100) (1 # 10)); [discriminate | discriminate].
Defined.

Lemma erlangB_rec_pos (E : Q) (m : nat) : 0 < E -> 0 < erlangB_rec E m.
Proof.
  intros HE. induction m as [|k IH]; simpl.
  - reflexivity.
  - assert (0 < E * erlangB_rec E k) by (apply Qmult_lt_0_compat; assumption).
    pose proof (Qnat_nonneg (S k)).
    apply Qlt_shift_div_l; lra.
Qed.

(** The search of [erlangB] at its two ends, for a positive load: a
    target of at most 0 is never met, so the 10000-circuit cap comes
    back; a target of at least 1 is met by one circuit. *)
Theorem erlangB_degenerate_targets (E p : Q) :
  0 < E -> (p <= 0 -> erlangB E p = 10000%nat) /\ (1 <= p -> erlangB E p = 1%nat).
Proof.
  intros HE. assert (HE0 : ~ E == 0) by (intro H; rewrite H in HE; discriminate).
  destruct (erlangB_char E p HE0) as (Hb & Hlt & Hend).
  split; intros Hp.
  - destruct Hend as [Hle | (Hcap & _)]; [|exact Hcap].
    pose proof (erlangB_rec_pos E (erlangB E p) HE). lra.
  - apply Nat.le_antisymm; [|lia].
    apply Nat.nlt_ge. intros H1.
    assert (Hp1 : p < erlangB_rec E 1) by (apply Hlt; lia).
    simpl in Hp1. change (Qnat 1) with 1 in Hp1.
    assert (Hq : E * 1 / (1 + E * 1) < 1).
    { apply Qlt_shift_div_r; lra. }
    lra.
Qed.

Lemma erlangB_degenerate_targets_witness :
  erlangB 5 0 = 10000%nat /\ erlangB 5 1 = 1%nat.
Proof.
  destruct (erlangB_degenerate_targets 5 0 eq_refl) as [H0 _].
  destruct (erlangB_degenerate_targets 5 1 eq_refl) as [_ H1].
  split; [apply H0; discriminate | apply H1; discriminate].
Defined.

Lemma floor_erlangs_bounds (dm : Q) :
  (3 # 10) * 12822 <= dm -> dm <= (7 # 10) * 28286 ->
  (10 <= Qfloor (dm * (17 # 100) / 60) <= 56)%Z.
Proof.
  intros Hlo Hhi.
  assert (E : dm * (17 # 100) / 60 == dm * (17 # 6000)) by field.
  split.
  - change 10%Z with (Qfloor 10). apply Qfloor_resp_le. rewrite E. lra.
  - change 56%Z with (Qfloor (281 # 5)). apply Qfloor_resp_le. rewrite E. lra.
Qed.

(** Circuit limits of the simulator for a snapshot built by
    [calculateTrafficData]: [calculateDynamicSimulationParams] allows 24
    concurrent calls on PSTN (one T1), 125 with G.729a and 15 with any
    other VoIP codec; each link that [startSimulation] builds from it
    (through [calculateLinkSimulationParams]) gets a limit between 10 and
    [min 56 that cap], whatever the random split. *)
Theorem app_sim_link_capacity (s : Snapshot) (rand : nat -> Q) :
  (forall k, 0 <= rand k /\ rand k < 1) ->
  trafficData s = App.calculateTrafficData (snapNetworkType s) (snapCodec s) (snapBlockingProb s) rand ->
  let params := calculateDynamicSimulationParams s in
  paramMaxConcurrentCalls params =
    (if String.eqb (snapNetworkType s) "pstn" then 24
     else if String.eqb (snapCodec s) "g729a" then 125 else 15)%Z /\
  Forall (fun l => (10 <= maxConcurrentCalls l <= Z.min 56 (paramMaxConcurrentCalls params))%Z)
    (map (simLink_of s params) (trafficData s)).
Proof.
  intros Hr Htd params.
  assert (Hcap : paramMaxConcurrentCalls params =
    (if String.eqb (snapNetworkType s) "pstn" then 24
     else if String.eqb (snapCodec s) "g729a" then 125 else 15)%Z).
  { subst params. unfold calculateDynamicSimulationParams.
    destruct (String.eqb (snapNetworkType s) "pstn"); [reflexivity|].
    destruct (String.eqb (snapCodec s) "g729a"); reflexivity. }
  split; [exact Hcap|].
  assert (Hfl : forall l, In l (trafficData s) -> (10 <= Qfloor (busyHourErlangs l) <= 56)%Z).
  { rewrite Htd, (app_calculateTrafficData_explicit _ _ _ _ Hr).
    destruct (app_matrix_entries rand) as (E01 & E02 & E10 & E12 & E20 & E21).
    pose proof (Hr 0%nat). pose proof (Hr 1%nat). pose proof (Hr 2%nat).
    intros l Hl. simpl in Hl.
    repeat destruct Hl as [<- | Hl]; try contradiction;
      rewrite busyHourErlangs_linkData_of; apply floor_erlangs_bounds;
      rewrite ?E01, ?E02, ?E10, ?E12, ?E20, ?E21; lra. }
  apply List.Forall_forall. intros sl Hsl. apply in_map_iff in Hsl.
  destruct Hsl as (l & <- & Hl). specialize (Hfl l Hl).
  change (maxConcurrentCalls (simLink_of s params l))
    with (Z.min (Qfloor (busyHourErlangs l)) (paramMaxConcurrentCalls params)).
  rewrite Hcap.
  destruct (String.eqb (snapNetworkType s) "pstn"); [|destruct (String.eqb (snapCodec s) "g729a")];
    lia.
Qed.

Lemma app_sim_link_capacity_witness :
  let params := calculateDynamicSimulationParams demo_snapshot in
  paramMaxConcurrentCalls params = 15%Z /\
  Forall (fun l => (10 <= maxConcurrentCalls l <= Z.min 56 (paramMaxConcurrentCalls params))%Z)
    (map (simLink_of demo_snapshot params) (trafficData demo_snapshot)).
Proof.
  apply (app_sim_link_capacity demo_snapshot (fun _ => 3 # 5)).
  - intros _. split; [apply Qlt_le_weak|]; reflexivity.
  - reflexivity.
Defined.

(** The two blocking rates the page shows for a simulation with accepted
    calls.  [updateSimulationMetrics] divides the blocked calls by all
    attempts ([totalCalls + blockedCalls]), which stays in [0..100];
    [getSimulationData] (used for the post-simulation results and AI
    summary) divides them by the accepted calls only, which is never
    smaller and exceeds 100 exactly when more calls were blocked than
    accepted. *)
Theorem blocking_rate_views (sid : string) (w : World) (r : nat) (d : SimData) :
  simulationData w !! sid = Some r -> heap w !! r = Some d ->
  (0 < totalCalls d)%Z -> (0 <= blockedCalls d)%Z ->
  exists live, liveBlockingRate d = Some live /\
    0 <= live <= 100 /\
    live <= sActualBlockingRate (getSimulationData sid w) /\
    (100 < sActualBlockingRate (getSimulationData sid w) <-> (totalCalls d < blockedCalls d)%Z).
Proof.
  intros Hs Hh Ht Hb.
  unfold getSimulationData, getSimulationMetrics. rewrite Hs. cbn [mbind option_bind].
  rewrite Hh. cbn [sActualBlockingRate].
  unfold liveBlockingRate.
  assert (Hlt : Z.ltb 0 (totalCalls d) = true) by (apply Z.ltb_lt; exact Ht).
  rewrite Hlt. eexists. split; [reflexivity|].
  rewrite inject_Z_plus, Zlt_Qlt.
  rewrite Zlt_Qlt in Ht. rewrite Zle_Qle in Hb.
  set (t := inject_Z (totalCalls d)) in *. set (b := inject_Z (blockedCalls d)) in *.
  change (inject_Z 0) with 0 in *.
  assert (Htb : 0 < t + b) by lra.
  assert (Elive : b / (t + b) * 100 == 100 * b / (t + b)) by (field; lra).
  assert (Eact : b / t * 100 == 100 * b / t) by (field; lra).
  rewrite Elive, Eact.
  split; [split|split].
  - apply Qle_shift_div_l; [exact Htb|]. lra.
  - apply Qle_shift_div_r; [exact Htb|]. lra.
  - assert (Ediff : 100 * b / t - 100 * b / (t + b) == (100 * b * b) / (t * (t + b)))
      by (field; split; lra).
    assert (Hpos : 0 <= (100 * b * b) / (t * (t + b))).
    { apply Qle_shift_div_l; [apply Qmult_lt_0_compat; assumption|].
      rewrite Qmult_0_l. apply Qmult_le_0_compat; [|exact Hb].
      apply Qmult_le_0_compat; [discriminate|exact Hb]. }
    lra.
  - split.
    + intros Hgt. apply Qnot_le_lt. intros Hle.
      assert (100 * b / t <= 100) by (apply Qle_shift_div_r; [exact Ht|lra]). lra.
    + intros Hlt'. apply Qlt_shift_div_l; [exact Ht|]. lra.
Qed.

Lemma blocking_rate_views_witness :
  exists live, liveBlockingRate saturated_data = Some live /\
    0 <= live <= 100 /\
    live <= sActualBlockingRate (getSimulationData demo_id saturated_world) /\
    (100 < sActualBlockingRate (getSimulationData demo_id saturated_world) <->
       (totalCalls saturated_data < blockedCalls saturated_data)%Z).
Proof.
  apply (blocking_rate_views demo_id saturated_world 0%nat saturated_data);
    [reflexivity | reflexivity | vm_compute; reflexivity | vm_compute; discriminate].
Defined.

Lemma clear_fold_subseteq (reg : gmap string nat) (live : gmap nat Timer) (keys : list string) :
  foldr (fun k acc => match reg !! k with Some h => delete h acc | None => acc end) live keys
    ⊆ live.
Proof.
  induction keys as [|k ks IH]; simpl; [reflexivity|].
  destruct (reg !! k); [|exact IH].
  etrans; [apply delete_subseteq | exact IH].
Qed.

Lemma clear_fold_deleted (reg : gmap string nat) (live : gmap nat Timer) (keys : list string)
    (k : string) (h : nat) :
  In k keys -> reg !! k = Some h ->
  foldr (fun k acc => match reg !! k with Some h => delete h acc | None => acc end) live keys
    !! h = None.
Proof.
  intros Hin Hk. induction keys as [|k' ks IH]; simpl in *; [contradiction|].
  destruct Hin as [-> | Hin].
  - rewrite Hk. apply lookup_delete_eq.
  - specialize (IH Hin). destruct (reg !! k'); [|exact IH].
    apply lookup_delete_None. right. exact IH.
Qed.

Lemma clearSimulation_timers_lookup (sid : string) (w : World) (k : string) :
  simulationTimers (clearSimulation sid w) !! k =
    if String.prefix sid k then None else simulationTimers w !! k.
Proof.
  unfold clearSimulation. cbn [simulationTimers set_timers].
  rewrite map_lookup_filter.
  destruct (simulationTimers w !! k) as [h|] eqn:Hk; cbn [mbind option_bind];
    destruct (String.prefix sid k) eqn:Hp; try reflexivity.
  - rewrite option_guard_False; [reflexivity|]. simpl. congruence.
  - rewrite option_guard_True; [reflexivity|]. simpl. exact Hp.
Qed.

(** [clearSimulation(snapshotId)] removes from [window.simulationTimers]
    exactly the keys that start with [snapshotId] (so also those of any
    other snapshot whose id extends it) and keeps every other entry; the
    timer handle of each removed key is cancelled, and no timer is
    started. *)
Theorem clearSimulation_registry (sid : string) (w : World) :
  (forall k, simulationTimers (clearSimulation sid w) !! k =
     if String.prefix sid k then None else simulationTimers w !! k) /\
  (forall k h, String.prefix sid k = true -> simulationTimers w !! k = Some h ->
     liveTimers (clearSimulation sid w) !! h = None) /\
  liveTimers (clearSimulation sid w) ⊆ liveTimers w.
Proof.
  split; [|split].
  - apply clearSimulation_timers_lookup.
  - intros k h Hp Hk. unfold clearSimulation. cbn [liveTimers set_timers].
    apply (clear_fold_deleted _ _ _ k h); [|exact Hk].
    apply list_elem_of_In, list_elem_of_filter. split; [exact Hp|].
    apply list_elem_of_In, in_map_iff. exists (k, h). split; [reflexivity|].
    apply list_elem_of_In, elem_of_map_to_list. exact Hk.
  - unfold clearSimulation. cbn [liveTimers set_timers]. apply clear_fold_subseteq.
Qed.

Lemma clearSimulation_registry_witness :
  liveTimers (clearSimulation "1700000000000-1" prefix_world) !! 5%nat = None.
Proof.
  destruct (clearSimulation_registry "1700000000000-1" prefix_world) as [_ [H _]].
  apply (H "1700000000000-17-metrics" 5%nat); reflexivity.
Defined.

Lemma heap_clearSimulation_fold (ids : list string) (w : World) :
  heap (fold_left (fun acc sid => clearSimulation sid acc) ids w) = heap w.
Proof.
  revert w. induction ids as [|i ids IH]; intros w; simpl; [reflexivity|].
  rewrite IH. apply heap_clearSimulation.
Qed.

Lemma clearSimulation_fold_timers (ids : list string) (w : World) (k : string) :
  (simulationTimers w !! k = None \/ Exists (fun sid => String.prefix sid k = true) ids) ->
  simulationTimers (fold_left (fun acc sid => clearSimulation sid acc) ids w) !! k = None.
Proof.
  revert w. induction ids as [|i ids IH]; intros w Hk; simpl.
  - destruct Hk as [Hk | Hk]; [exact Hk | inversion Hk].
  - apply IH. rewrite clearSimulation_timers_lookup.
    destruct (String.prefix i k) eqn:Hp; [left; reflexivity|].
    destruct Hk as [Hk | Hk]; [left; exact Hk|].
    inversion Hk as [? ? Hi | ? ? Hex]; subst; [congruence | right; exact Hex].
Qed.

(** [clearAllSimulations()] (run by [clearSnapshots]) leaves no simulation
    behind: no snapshot id has metrics any more, so [getSimulationData]
    reports zeros for every id; no simulation counts as running; and
    every registered timer key that starts with the id of a simulation
    that had data is gone from [window.simulationTimers].  The simulation
    objects themselves are not touched. *)
Theorem clearAllSimulations_resets (w : World) :
  (forall sid, getSimulationMetrics sid (clearAllSimulations w) = None /\
               sTotalCalls (getSimulationData sid (clearAllSimulations w)) = 0%Z) /\
  simulationRunning (clearAllSimulations w) = false /\
  currentSimulationId (clearAllSimulations w) = None /\
  (forall sid r k, simulationData w !! sid = Some r -> String.prefix sid k = true ->
     simulationTimers (clearAllSimulations w) !! k = None) /\
  heap (clearAllSimulations w) = heap w.
Proof.
  split; [|split; [reflexivity|split; [reflexivity|split]]].
  - intros sid. split; reflexivity.
  - intros sid r k Hs Hp. unfold clearAllSimulations. cbn [simulationTimers].
    apply clearSimulation_fold_timers. right.
    apply List.Exists_exists. exists sid. split; [|exact Hp].
    apply in_map_iff. exists (sid, r). split; [reflexivity|].
    apply list_elem_of_In, elem_of_map_to_list. exact Hs.
  - unfold clearAllSimulations. cbn [heap]. apply heap_clearSimulation_fold.
Qed.

Lemma clearAllSimulations_resets_witness :
  simulationTimers (clearAllSimulations saturated_world) !! (String.append demo_id "-metrics") = None.
Proof.
  destruct (clearAllSimulations_resets saturated_world) as (_ & _ & _ & H & _).
  apply (H demo_id 0%nat); reflexivity.
Defined.

(** ** Invariants of the simulation objects over any run *)

Section HeapInvariant.

Variable P : SimData -> Prop.
Hypothesis P_fresh : P freshSimData.
Hypothesis P_reset : forall now links d, P d -> P (reset_for_start now links d).
Hypothesis P_blocked : forall d, P d -> P (incr_blocked d).
Hypothesis P_accept : forall link d, P d -> P (accept_call link d).
Hypothesis P_end : forall bw d, P d -> (0 < activeCalls d)%Z -> P (end_call bw d).
Hypothesis P_touch : forall t d, P d -> P (with_lastUpdateTime t d).

Lemma pinv_insert (w h : World) (r : nat) (d : SimData) :
  map_Forall (fun _ => P) (heap w) -> P d -> heap h = <[r := d]> (heap w) ->
  map_Forall (fun _ => P) (heap h).
Proof. intros Hw Hd Hh. rewrite Hh. apply map_Forall_insert_2; assumption. Qed.

Lemma pinv_update s now w :
  map_Forall (fun _ => P) (heap w) -> map_Forall (fun _ => P) (heap (updateSimulationMetrics s now w)).
Proof.
  intros Hw. unfold updateSimulationMetrics.
  destruct (simulationData w !! s) as [r|]; [|exact Hw].
  destruct (heap w !! r) as [d|] eqn:Hd; [|exact Hw].
  pose proof (map_Forall_lookup_1 _ _ _ _ Hw Hd) as HP.
  repeat case_match; try exact Hw;
    (eapply pinv_insert; [exact Hw | | reflexivity]; apply P_touch; exact HP).
Qed.

Lemma pinv_stop s now w :
  map_Forall (fun _ => P) (heap w) -> map_Forall (fun _ => P) (heap (stopSimulation s now w)).
Proof.
  intros Hw. unfold stopSimulation.
  destruct (negb (has_dom s w)); [exact Hw|].
  apply pinv_update. exact Hw.
Qed.

Lemma pinv_start s now w :
  map_Forall (fun _ => P) (heap w) -> map_Forall (fun _ => P) (heap (startSimulation s now w)).
Proof.
  intros Hw. unfold startSimulation.
  destruct (negb (has_dom s w)); [exact Hw|].
  set (w1 := if simulationRunning w && _ then _ else w).
  assert (H1 : map_Forall (fun _ => P) (heap w1)).
  { subst w1. repeat case_match; try exact Hw. apply pinv_stop. exact Hw. }
  clearbody w1.
  set (w2 := set_flags true (Some s) w1).
  assert (H2 : map_Forall (fun _ => P) (heap w2)) by exact H1.
  clearbody w2.
  destruct (find _ (snapshots w2)) as [snap|]; [|exact H2].
  destruct (simulationData w2 !! s) as [r|]; [|exact H2].
  destruct (heap w2 !! r) as [d|] eqn:Hd; [|exact H2].
  unfold schedule, register. cbn [heap set_timers].
  rewrite heap_register_links. cbn [heap set_heap].
  apply map_Forall_insert_2; [|exact H2].
  apply P_reset. exact (map_Forall_lookup_1 _ _ _ _ H2 Hd).
Qed.

Lemma pinv_spawn s link dr w :
  map_Forall (fun _ => P) (heap w) -> map_Forall (fun _ => P) (heap (spawnDynamicCall s link dr w)).
Proof.
  intros Hw. unfold spawnDynamicCall.
  destruct (simulationData w !! s) as [r|]; [|exact Hw].
  destruct (heap w !! r) as [d|] eqn:Hd; [|exact Hw].
  pose proof (map_Forall_lookup_1 _ _ _ _ Hw Hd) as HP.
  destruct (Qlt_bool _ _); [exact Hw|].
  destruct (js_lt _ _).
  - eapply pinv_insert; [exact Hw | | reflexivity]. apply P_blocked. exact HP.
  - eapply pinv_insert; [exact Hw | | reflexivity]. apply P_accept. exact HP.
Qed.

Lemma pinv_departure r bw w :
  map_Forall (fun _ => P) (heap w) -> map_Forall (fun _ => P) (heap (departure r bw w)).
Proof.
  intros Hw. unfold departure.
  destruct (heap w !! r) as [d|] eqn:Hd; [|exact Hw].
  destruct (Z.ltb 0 (activeCalls d)) eqn:Hlt; [|exact Hw].
  apply Z.ltb_lt in Hlt.
  eapply pinv_insert; [exact Hw | | reflexivity].
  apply P_end; [exact (map_Forall_lookup_1 _ _ _ _ Hw Hd) | exact Hlt].
Qed.

Lemma pinv_fire h t now dr w :
  map_Forall (fun _ => P) (heap w) -> map_Forall (fun _ => P) (heap (fireTimer h t now dr w)).
Proof.
  intros Hw. unfold fireTimer.
  set (w0 := if is_timeout t then _ else w).
  assert (H0 : map_Forall (fun _ => P) (heap w0)) by (subst w0; destruct (is_timeout t); exact Hw).
  clearbody w0.
  destruct t.
  - destruct (Qlt_bool _ _); [apply pinv_spawn|]; exact H0.
  - apply pinv_update. exact H0.
  - apply pinv_stop. exact H0.
  - exact H0.
  - apply pinv_departure. exact H0.
Qed.

Lemma pinv_initialize s w :
  map_Forall (fun _ => P) (heap w) -> map_Forall (fun _ => P) (heap (initializeSimulation s w)).
Proof.
  intros Hw. unfold initializeSimulation.
  destruct (negb (has_dom s w)); [exact Hw|].
  set (w1 := match simulationData w !! s with Some _ => _ | None => w end).
  assert (H1 : map_Forall (fun _ => P) (heap w1)) by (subst w1; case_match; exact Hw).
  clearbody w1. cbn [heap].
  apply map_Forall_insert_2; [exact P_fresh | exact H1].
Qed.

Lemma pinv_run w evs :
  map_Forall (fun _ => P) (heap w) -> map_Forall (fun _ => P) (heap (run w evs)).
Proof.
  unfold run. revert w. induction evs as [|ev evs IH]; intros w Hw; simpl; [exact Hw|].
  apply IH. destruct ev as [s|s now|s now|h now dr|]; cbn [step].
  - apply pinv_initialize. exact Hw.
  - apply pinv_start. exact Hw.
  - apply pinv_stop. exact Hw.
  - destruct (liveTimers w !! h); [apply pinv_fire|]; exact Hw.
  - exact Hw.
Qed.

End HeapInvariant.

(** Over any sequence of page events (initialise, start, stop, timer
    firings, results replaced), every simulation object whose counters
    start consistent stays consistent: calls in progress never go
    negative nor above the recorded peak, and the accepted and blocked
    counters stay non-negative.  So [getSimulationMetrics] never reports
    a peak below the current number of active calls. *)
Theorem sim_counters_consistent (w : World) (evs : list Event) :
  map_Forall (fun _ => sim_ok) (heap w) ->
  forall sid d, getSimulationMetrics sid (run w evs) = Some d -> sim_ok d.
Proof.
  intros Hw sid d Hd.
  assert (Hall : map_Forall (fun _ => sim_ok) (heap (run w evs))).
  { apply pinv_run; try exact Hw; unfold sim_ok; cbn.
    - lia.
    - intros now links d' H. lia.
    - intros d' H. lia.
    - intros link d' H. destruct (Z.ltb_spec (peakActiveCalls d') (activeCalls d' + 1)); lia.
    - intros bw d' H Hlt. lia.
    - intros t d' H. exact H. }
  unfold getSimulationMetrics in Hd.
  destruct (simulationData (run w evs) !! sid) as [r|]; [|discriminate].
  exact (map_Forall_lookup_1 _ _ _ _ Hall Hd).
Qed.

Lemma sim_counters_consistent_witness :
  exists d, getSimulationMetrics demo_id (run saturated_world [EvStop demo_id 70000]) = Some d /\
    sim_ok d.
Proof.
  assert (Hw : map_Forall (fun _ => sim_ok) (heap saturated_world)).
  { apply map_Forall_singleton. unfold sim_ok. cbn. lia. }
  pose proof (sim_counters_consistent saturated_world [EvStop demo_id 70000] Hw demo_id) as H.
  destruct (getSimulationMetrics demo_id (run saturated_world [EvStop demo_id 70000])) as [d|] eqn:E.
  - exists d. split; [reflexivity | apply H; reflexivity].
  - vm_compute in E. discriminate.
Defined.

(** ** Snapshot comparison *)

Lemma Qeq_bool_sym (x y : Q) : Qeq_bool x y = Qeq_bool y x.
Proof.
  destruct (Qeq_bool x y) eqn:H1, (Qeq_bool y x) eqn:H2; try reflexivity.
  - apply Qeq_bool_iff in H1. apply Qeq_bool_neq in H2. exfalso. apply H2. symmetry. exact H1.
  - apply Qeq_bool_iff in H2. apply Qeq_bool_neq in H1. exfalso. apply H1. symmetry. exact H2.
Qed.

Lemma strict_neq_sym (a b : jsval) : strict_neq a b = strict_neq b a.
Proof.
  destruct a as [|[x|]|s], b as [|[y|]|t]; cbn; try reflexivity.
  - rewrite Qeq_bool_sym. reflexivity.
  - rewrite String.eqb_sym. reflexivity.
Qed.

Lemma abs_diff_gt_sym (a b : option Q) : abs_diff_gt a b = abs_diff_gt b a.
Proof.
  destruct a as [x|], b as [y|]; unfold abs_diff_gt; try reflexivity.
  rewrite Qabs_Qminus. reflexivity.
Qed.

Lemma link_identical_sym (nt : string) (l1 l2 : LinkData) :
  link_identical nt l1 l2 = link_identical nt l2 l1.
Proof.
  unfold link_identical.
  rewrite (String.eqb_sym (from l1)), (String.eqb_sym (to l1)).
  rewrite (abs_diff_gt_sym (Some (dailyMinutes l1))),
          (abs_diff_gt_sym (Some (busyHourErlangs l1))).
  rewrite (strict_neq_sym (get_requiredCircuits l1)), (strict_neq_sym (get_t1Count l1)),
          (abs_diff_gt_sym (to_number (get_bandwidthMbps l1))),
          (strict_neq_sym (get_codec l1)), (strict_neq_sym (get_totalBandwidthPerCall l1)),
          (abs_diff_gt_sym (to_number (get_totalBandwidthMbps l1))).
  reflexivity.
Qed.

Lemma links_identical_sym (nt : string) (td1 td2 : list LinkData) :
  links_identical nt td1 td2 = links_identical nt td2 td1.
Proof.
  revert td2. induction td1 as [|l1 td1 IH]; intros [|l2 td2]; cbn; try reflexivity.
  rewrite link_identical_sym, IH. reflexivity.
Qed.

(** [checkIfSnapshotsAreIdentical] does not depend on the order of its
    arguments: the "identical snapshots" notice of [compareSelected] is
    the same whichever snapshot was selected first. *)
Theorem checkIfSnapshotsAreIdentical_sym (s1 s2 : Snapshot) :
  checkIfSnapshotsAreIdentical s1 s2 = checkIfSnapshotsAreIdentical s2 s1.
Proof.
  unfold checkIfSnapshotsAreIdentical.
  rewrite (String.eqb_sym (snapNetworkType s2)).
  destruct (String.eqb (snapNetworkType s1) (snapNetworkType s2)) eqn:Hn; [|reflexivity].
  apply String.eqb_eq in Hn. rewrite Hn. cbn [negb].
  rewrite (Qeq_bool_sym (snapBlockingProb s2)).
  destruct (Qeq_bool (snapBlockingProb s1) (snapBlockingProb s2)); [|reflexivity]. cbn [negb].
  rewrite (String.eqb_sym (snapCodec s2)), (Nat.eqb_sym (length (trafficData s2))).
  rewrite (links_identical_sym _ (trafficData s2)). reflexivity.
Qed.

Lemma abs_diff_gt_self (x : Q) : abs_diff_gt (Some x) (Some x) = false.
Proof.
  unfold abs_diff_gt, Qlt_bool. apply negb_false_iff, Qle_bool_iff.
  rewrite Qabs_pos by lra. lra.
Qed.

Lemma link_identical_self (nt c : string) (bp : Q) (i j : nat) (dm : Q) :
  let l := linkData_of nt c bp i j dm in
  link_identical nt l l =
    (String.eqb nt "pstn" || match CODEC_BANDWIDTHS !! c with Some _ => true | None => false end).
Proof.
  intros l. subst l. unfold link_identical.
  rewrite !String.eqb_refl, !abs_diff_gt_self. cbn [negb orb].
  unfold linkData_of. cbn [extra].
  destruct (String.eqb nt "pstn");
    cbn [get_requiredCircuits get_t1Count get_bandwidthMbps get_codec
         get_totalBandwidthPerCall get_totalBandwidthMbps to_number extra orb].
  - cbn [strict_neq]. rewrite !Qeq_bool_refl, abs_diff_gt_self. reflexivity.
  - cbn [strict_neq]. rewrite String.eqb_refl.
    destruct (CODEC_BANDWIDTHS !! c) as [cb|]; cbn [option_map strict_neq negb orb];
      [|reflexivity].
    rewrite Qeq_bool_refl, abs_diff_gt_self. reflexivity.
Qed.

(** Two snapshots with the same network type, codec, blocking
    probability and traffic split are reported identical only when the
    links carry no [NaN]: always for PSTN, and for VoIP exactly when the
    codec is one of [CODEC_BANDWIDTHS]; with any other codec every
    [totalBandwidthPerCall] is [NaN], [NaN !== NaN] holds, and the check
    answers [false]. *)
Theorem same_analysis_identical (s1 s2 : Snapshot) (rand : nat -> Q) :
  (forall k, 0 <= rand k /\ rand k < 1) ->
  snapNetworkType s2 = snapNetworkType s1 -> snapCodec s2 = snapCodec s1 ->
  snapBlockingProb s2 = snapBlockingProb s1 ->
  trafficData s1 = App.calculateTrafficData (snapNetworkType s1) (snapCodec s1) (snapBlockingProb s1) rand ->
  trafficData s2 = trafficData s1 ->
  checkIfSnapshotsAreIdentical s1 s2 =
    (String.eqb (snapNetworkType s1) "pstn" ||
     match CODEC_BANDWIDTHS !! snapCodec s1 with Some _ => true | None => false end).
Proof.
  intros Hr Hn Hc Hb Htd1 Htd2.
  unfold checkIfSnapshotsAreIdentical.
  rewrite Hn, Hc, Hb, Htd2, !String.eqb_refl, Qeq_bool_refl, Nat.eqb_refl, andb_false_r.
  cbn [negb]. rewrite Htd1, (app_calculateTrafficData_explicit _ _ _ _ Hr).
  cbn [links_identical]. rewrite !link_identical_self.
  destruct (_ || _); reflexivity.
Qed.

Lemma same_analysis_identical_witness :
  checkIfSnapshotsAreIdentical demo_snapshot
    {| snapId := "1760000000001-7"; snapNetworkType := "voip"; snapCodec := "g711";
       snapBlockingProb := 1 # 100; trafficData := trafficData demo_snapshot |} = true.
Proof.
  apply (same_analysis_identical demo_snapshot _ (fun _ => 3 # 5));
    try reflexivity.
  intros _. split; [apply Qlt_le_weak|]; reflexivity.
Defined.

(** ** Analyses and their selection *)

Lemma autoselect_elem (l : list Snapshot) (acc : gset string) (x : string) :
  x ∈ fold_left (fun sel s => {[snapId s]} ∪ sel) l acc -> x ∈ acc \/ In x (map snapId l).
Proof.
  revert acc. induction l as [|s l IH]; intros acc Hx; simpl in *; [left; exact Hx|].
  destruct (IH _ Hx) as [H | H]; [|right; right; exact H].
  apply elem_of_union in H. destruct H as [H | H]; [|left; exact H].
  apply elem_of_singleton in H. right; left; symmetry; exact H.
Qed.

Lemma update_ok_button (st : AppState) :
  (length (appSnapshots st) <= 2)%nat ->
  Forall (fun s => 1 # 1000 <= snapBlockingProb s /\ snapBlockingProb s <= 1 # 10)
    (appSnapshots st) ->
  (forall id, id ∈ selectedSnapshots st -> In id (map snapId (appSnapshots st))) ->
  (forall id, In id (renderedIds st) -> In id (map snapId (appSnapshots st))) ->
  app_ok (updateCompareButton st).
Proof.
  intros H1 H2 H3 H4. unfold app_ok, updateCompareButton; cbn.
  repeat split; assumption || reflexivity.
Qed.

Lemma app_step_ok (st : AppState) (ev : AppEvent) : app_ok st -> app_ok (app_step st ev).
Proof.
  intros Hok. destruct Hok as (Hlen & Hbp & Hsel & Hdom & Hcnt & Hdis).
  destruct ev as [nt c bp rand id | | id checked]; cbn [app_step].
  - unfold runAnalysis.
    assert (Herr : app_ok (show_error st)).
    { unfold app_ok, show_error; cbn. repeat split; try assumption. intros i []. }
    destruct (Nat.leb 2 (length (appSnapshots st))) eqn:Hl; [exact Herr|].
    apply Nat.leb_gt in Hl.
    destruct bp as [bp|]; [|exact Herr].
    destruct (Qlt_bool bp (1 # 1000) || Qlt_bool (1 # 10) bp) eqn:Hv; [exact Herr|].
    apply orb_false_iff in Hv. destruct Hv as [Hv1 Hv2].
    apply Qlt_bool_false in Hv1. apply Qlt_bool_false in Hv2.
    set (snap := {| snapId := id; snapNetworkType := nt; snapCodec := c;
                    snapBlockingProb := bp;
                    trafficData := App.calculateTrafficData nt c bp rand |}).
    assert (Hlen' : (length (appSnapshots st ++ [snap]) <= 2)%nat)
      by (rewrite length_app; cbn; lia).
    assert (Hbp' : Forall (fun s => 1 # 1000 <= snapBlockingProb s /\ snapBlockingProb s <= 1 # 10)
                     (appSnapshots st ++ [snap])).
    { apply Forall_app. split; [exact Hbp|]. constructor; [|constructor]. cbn. split; assumption. }
    assert (Hin : forall x, In x (map snapId (appSnapshots st)) ->
                    In x (map snapId (appSnapshots st ++ [snap]))).
    { intros x Hx. rewrite map_app. apply in_or_app. left. exact Hx. }
    assert (Hdom' : forall x, In x (renderedIds st ++ [id]) ->
                      In x (map snapId (appSnapshots st ++ [snap]))).
    { intros x Hx. apply in_app_or in Hx. destruct Hx as [Hx | [<- | []]].
      - apply Hin, Hdom, Hx.
      - rewrite map_app. apply in_or_app. right. left. reflexivity. }
    destruct (Nat.eqb (length (appSnapshots st ++ [snap])) 2).
    + apply update_ok_button; cbn; try assumption.
      intros x Hx. destruct (autoselect_elem _ _ _ Hx) as [H | H]; [set_solver | exact H].
    + unfold app_ok; cbn. repeat split; try assumption.
      intros x Hx. apply Hin, Hsel, Hx.
  - unfold clearSnapshots. apply update_ok_button; cbn.
    + lia.
    + constructor.
    + set_solver.
    + intros i [].
  - unfold checkboxChange.
    destruct (bool_decide (id ∈ renderedIds st)) eqn:Hd.
    + apply bool_decide_eq_true in Hd.
      apply update_ok_button; cbn; try assumption.
      intros x Hx. destruct checked.
      * apply elem_of_union in Hx. destruct Hx as [Hx | Hx]; [|apply Hsel, Hx].
        apply elem_of_singleton in Hx. subst x. apply Hdom. apply list_elem_of_In. exact Hd.
      * apply elem_of_difference in Hx. apply Hsel. apply Hx.
    + unfold app_ok. repeat split; assumption.
Qed.

Lemma app_run_ok (st : AppState) (evs : list AppEvent) : app_ok st -> app_ok (app_run st evs).
Proof.
  unfold app_run. revert st. induction evs as [|ev evs IH]; intros st Hok; cbn; [exact Hok|].
  apply IH, app_step_ok, Hok.
Qed.

Lemma find_snapshot_in (snaps : list Snapshot) (id : string) :
  In id (map snapId snaps) -> exists s, find_snapshot snaps id = Some s.
Proof.
  unfold find_snapshot. induction snaps as [|s snaps IH]; cbn; [intros []|].
  intros [Hs | Hin].
  - exists s. rewrite Hs, String.eqb_refl. reflexivity.
  - destruct (String.eqb (snapId s) id); [exists s; reflexivity | exact (IH Hin)].
Qed.

(** From a consistent page state, after any sequence of analyses, clears
    and checkbox changes: at most two analyses are stored, every stored
    blocking probability passed the [0.001 .. 0.1] validation, the
    Compare button shows the number of selected snapshots and is enabled
    exactly when two are selected, and every selected id names a stored
    analysis.  Hence [compareSelected] never stops at "Selected snapshots
    not found", and it goes on to the comparison exactly when the
    Compare button is enabled. *)
Theorem app_selection_consistent (st : AppState) (evs : list AppEvent) :
  app_ok st ->
  let st' := app_run st evs in
  app_ok st' /\
  compareSelected_guard st' <> NotFoundError /\
  (compareSelected_guard st' = CompareProceeds <-> compareDisabled st' = false).
Proof.
  intros Hok st'.
  assert (Hok' : app_ok st') by (apply app_run_ok, Hok).
  destruct Hok' as (Hlen & Hbp & Hsel & Hdom & Hcnt & Hdis).
  assert (Hproc : Nat.eqb (size (selectedSnapshots st')) 2 = true ->
                  compareSelected_guard st' = CompareProceeds).
  { intros H2. unfold compareSelected_guard. rewrite H2. cbn [negb].
    apply Nat.eqb_eq in H2.
    assert (Hel : length (elements (selectedSnapshots st')) = 2%nat) by exact H2.
    destruct (elements (selectedSnapshots st')) as [|a [|b [|]]] eqn:He; try discriminate.
    assert (Ha : a ∈ selectedSnapshots st').
    { apply elem_of_elements. rewrite He. left. }
    assert (Hb : b ∈ selectedSnapshots st').
    { apply elem_of_elements. rewrite He. right. left. }
    destruct (find_snapshot_in _ _ (Hsel a Ha)) as [sa Hsa].
    destruct (find_snapshot_in _ _ (Hsel b Hb)) as [sb Hsb].
    cbn. rewrite Hsa, Hsb. reflexivity. }
  split; [repeat split; assumption|]. split.
  - destruct (Nat.eqb (size (selectedSnapshots st')) 2) eqn:H2.
    + rewrite (Hproc eq_refl). discriminate.
    + unfold compareSelected_guard. rewrite H2. discriminate.
  - rewrite Hdis. split.
    + intros Hg. destruct (Nat.eqb (size (selectedSnapshots st')) 2) eqn:H2; [reflexivity|].
      unfold compareSelected_guard in Hg. rewrite H2 in Hg. discriminate.
    + intros H2. apply negb_false_iff in H2. apply Hproc, H2.
Qed.

Lemma app_selection_consistent_witness :
  let st' := app_run app_initial
               [RunAnalysis "pstn" "g711" (Some (1 # 100)) (fun _ => 1 # 2) "1760000000000-1";
                RunAnalysis "voip" "g729a" (Some (1 # 50)) (fun _ => 1 # 4) "1760000000005-2"] in
  app_ok st' /\ compareSelected_guard st' <> NotFoundError /\
  (compareSelected_guard st' = CompareProceeds <-> compareDisabled st' = false).
Proof.
  apply app_selection_consistent.
  unfold app_ok, app_initial; cbn [appSnapshots selectedSnapshots renderedIds compareCount
                                   compareDisabled].
  split; [cbn; lia|]. split; [constructor|]. split; [intros id Hid; set_solver|].
  split; [intros id []|]. split; reflexivity.
Defined.

(** ** Section ids and the simulation log *)

Lemma string_prefix_app (s t : string) : String.prefix s (String.append s t) = true.
Proof.
  induction s as [|a s IH]; [destruct t; reflexivity|].
  change (String.append (String a s) t) with (String a (String.append s t)).
  cbn [String.prefix]. destruct (Ascii.ascii_dec a a) as [_|n]; [exact IH | contradiction].
Qed.

Lemma substring_0_full (s : string) : String.substring 0 (String.length s) s = s.
Proof. induction s as [|a s IH]; cbn; [reflexivity | rewrite IH; reflexivity]. Qed.

Lemma string_length_append (s t : string) :
  String.length (String.append s t) = (String.length s + String.length t)%nat.
Proof. induction s as [|a s IH]; simpl; [reflexivity | rewrite IH; reflexivity]. Qed.

Lemma substring_after_prefix (p s : string) :
  String.substring (String.length p) (String.length (String.append p s) - String.length p)
    (String.append p s) = s.
Proof.
  rewrite string_length_append, Nat.add_sub_swap, Nat.sub_diag, Nat.add_0_l by lia.
  induction p as [|a p IH]; cbn; [apply substring_0_full | exact IH].
Qed.

Lemma replace_first_strip (p t : string) : js_replace_first p "" (String.append p t) = t.
Proof.
  unfold js_replace_first.
  assert (Hi : String.index 0 p (String.append p t) = Some 0%nat).
  { pose proof (string_prefix_app p t) as Hp.
    destruct (String.append p t) as [|b r] eqn:E.
    - destruct p; [reflexivity | discriminate E].
    - cbn [String.index]. rewrite Hp. reflexivity. }
  rewrite Hi.
  assert (H0 : String.substring 0 0 (String.append p t) = EmptyString)
    by (destruct (String.append p t); reflexivity).
  rewrite H0. cbn [String.append Nat.add].
  exact (substring_after_prefix p t).
Qed.

(** Reading the snapshot id back from its section id gives the id that
    [runAnalysis] used, for every id: the [MutationObserver] and
    [initializeExistingSnapshots] initialise the right simulation. *)
Theorem section_id_roundtrip (id : string) :
  section_snapshot_id (snapshot_section_id id) = id.
Proof.
  unfold section_snapshot_id, snapshot_section_id. apply replace_first_strip.
Qed.

(** After a batch is written, a simulation log holds at most 50
    entries: the newest ones, in order, with nothing lost while fewer
    than 50 have been written. *)
Theorem flushLog_keeps_last_50 (le : LogElement) :
  let le' := flushLog le in
  length (logEntries le') = Nat.min 50 (length (logEntries le) + length (batchUpdates le)) /\
  (exists older, logEntries le ++ batchUpdates le = older ++ logEntries le') /\
  batchUpdates le' = [].
Proof.
  intros le'. subst le'. unfold flushLog. cbn [logEntries batchUpdates].
  set (entries := logEntries le ++ batchUpdates le).
  assert (Hlen : length entries = (length (logEntries le) + length (batchUpdates le))%nat)
    by (subst entries; apply length_app).
  split; [|split; [|reflexivity]].
  - rewrite length_skipn, <- Hlen.
    destruct (Nat.ltb_spec 50 (length entries)); lia.
  - eexists. symmetry. apply take_drop.
Qed.

(** ** Comparison of two analyses *)

Lemma fold_erlangs (td : list LinkData) (a : Q) :
  fold_left (fun sum link => sum + busyHourErlangs link) td a == a + sum_erlangs td.
Proof.
  revert a. induction td as [|l td IH]; intros a; cbn [fold_left].
  - unfold sum_erlangs. cbn [fold_right]. ring.
  - rewrite IH, sum_erlangs_cons. ring.
Qed.

Lemma fold_bandwidth (nt : string) (k : Q) (td : list LinkData) :
  Forall (fun l => link_bandwidth nt l = Some (busyHourErlangs l * k / 1000)) td ->
  forall b, exists z,
    fold_left (fun sum link => js_add sum (link_bandwidth nt link)) td (Some b) = Some z /\
    z == b + sum_erlangs td * k / 1000.
Proof.
  induction td as [|l td IH]; intros Hall b; cbn [fold_left].
  - exists b. split; [reflexivity|]. unfold sum_erlangs. cbn [fold_right]. field.
  - inversion Hall as [|? ? Hl Hrest]; subst.
    rewrite Hl. cbn [js_add mbind option_bind].
    destruct (IH Hrest (b + busyHourErlangs l * k / 1000)) as (z & Hz & Hzeq).
    exists z. split; [exact Hz|]. rewrite Hzeq, sum_erlangs_cons. field.
Qed.

Lemma app_summary_voip (s : Snapshot) (w : World) (rand : nat -> Q) (cb : Q) :
  (forall k, 0 <= rand k /\ rand k < 1) ->
  trafficData s = App.calculateTrafficData (snapNetworkType s) (snapCodec s) (snapBlockingProb s) rand ->
  String.eqb (snapNetworkType s) "pstn" = false ->
  CODEC_BANDWIDTHS !! snapCodec s = Some cb ->
  (sTotalCalls (getSimulationData (snapId s) w) <= 0)%Z ->
  exists r, generateSnapshotSummary s w = Some r /\
    sumTotalErlangs r == 69108 * (17 # 100) / 60 /\
    sumEfficiencyScore r == 1000 / (cb + 16) /\
    exists tb, sumTotalBandwidth r = Some tb /\
      tb == 69108 * (17 # 100) / 60 * (cb + 16) / 1000.
Proof.
  intros Hr Htd Hnt Hcb Hsim.
  assert (Hcb0 : 0 <= cb) by exact (map_Forall_lookup_1 _ _ _ _ codec_bandwidths_nonneg Hcb).
  assert (HH : HEADER_BANDWIDTH == 16) by reflexivity.
  pose proof (app_sum_erlangs (snapNetworkType s) (snapCodec s) (snapBlockingProb s) rand Hr) as HS.
  rewrite <- Htd in HS.
  assert (Hall : Forall (fun l => link_bandwidth (snapNetworkType s) l =
                           Some (busyHourErlangs l * (cb + HEADER_BANDWIDTH) / 1000)) (trafficData s)).
  { apply List.Forall_forall. intros l Hl. rewrite Htd in Hl.
    destruct (in_calculateTrafficData_with _ _ _ _ _ Hl) as (i & j & dm & ->).
    rewrite link_bandwidth_voip, Hcb by exact Hnt. reflexivity. }
  destruct (fold_bandwidth _ _ _ Hall 0) as (z & Hz & Hzeq).
  pose proof (fold_erlangs (trafficData s) 0) as He.
  assert (Hne : trafficData s <> []).
  { rewrite Htd, (app_calculateTrafficData_explicit _ _ _ _ Hr). discriminate. }
  unfold generateSnapshotSummary.
  assert (Hlt : Z.ltb 0 (sTotalCalls (getSimulationData (snapId s) w)) = false)
    by (apply Z.ltb_ge; exact Hsim).
  rewrite Hlt, Hz.
  set (E := fold_left (fun sum link => sum + busyHourErlangs link) (trafficData s) 0) in *.
  clearbody E.
  destruct (trafficData s) as [|l0 td0]; [contradiction|].
  eexists. split; [reflexivity|].
  cbn [sumTotalErlangs sumEfficiencyScore sumTotalBandwidth score_of].
  assert (Hz0 : 0 < z).
  { rewrite Hzeq, HS, HH.
    assert (Ez : 0 + 69108 * (17 # 100) / 60 * (cb + 16) / 1000
                 == 69108 * (17 # 100) / 60 / 1000 * cb + 69108 * (17 # 100) / 60 * 16 / 1000)
      by field.
    rewrite Ez.
    apply Qlt_le_trans with (0 + 69108 * (17 # 100) / 60 * 16 / 1000); [reflexivity|].
    apply Qplus_le_compat; [apply Qmult_le_0_compat; [discriminate|exact Hcb0] | apply Qle_refl]. }
  apply Qlt_bool_true in Hz0. rewrite Hz0.
  assert (Hk : ~ cb + 16 == 0) by (intro Eq; lra).
  split; [rewrite He, HS; ring|]. split.
  - rewrite He, Hzeq, HS, HH. field. exact Hk.
  - exists z. split; [reflexivity|]. rewrite Hzeq, HS, HH. ring.
Qed.

Lemma Qlt_bool_wd (a a' b b' : Q) : a == a' -> b == b' -> Qlt_bool a b = Qlt_bool a' b'.
Proof.
  intros Ha Hb. destruct (Qlt_bool a' b') eqn:H.
  - apply Qlt_bool_true in H. apply Qlt_bool_true. rewrite Ha, Hb. exact H.
  - apply Qlt_bool_false in H. apply Qlt_bool_false. rewrite Ha, Hb. exact H.
Qed.

Lemma div_pos_iff (x P : Q) : 0 < P -> (0 < x / P <-> 0 < x).
Proof.
  intros HP. split; intros H.
  - assert (E : x == x / P * P) by (field; intro E; rewrite E in HP; discriminate).
    rewrite E. apply Qmult_lt_0_compat; assumption.
  - apply Qlt_shift_div_l; [exact HP|]. rewrite Qmult_0_l. exact H.
Qed.

Lemma Qlt_bool_iff_eq (x y u v : Q) : (x < y <-> u < v) -> Qlt_bool x y = Qlt_bool u v.
Proof.
  intros Hiff. destruct (Qlt_bool u v) eqn:H.
  - apply Qlt_bool_true. apply Hiff. apply Qlt_bool_true. exact H.
  - apply Qlt_bool_false. apply Qnot_lt_le. intros Hd. apply Hiff in Hd.
    apply Qlt_bool_false in H. lra.
Qed.

Lemma efficiency_order (a b : Q) :
  0 <= a -> 0 <= b -> Qlt_bool 0 (1000 / (b + 16) - 1000 / (a + 16)) = Qlt_bool b a.
Proof.
  intros Ha Hb.
  assert (HP : 0 < (a + 16) * (b + 16)) by (apply Qmult_lt_0_compat; lra).
  assert (E : 1000 / (b + 16) - 1000 / (a + 16) == 1000 * (a - b) / ((a + 16) * (b + 16)))
    by (field; split; intro E; lra).
  apply Qlt_bool_iff_eq. rewrite E, div_pos_iff by exact HP. lra.
Qed.

Lemma bandwidth_order (a b : Q) :
  Qlt_bool 0 (69108 * (17 # 100) / 60 * (b + 16) / 1000 - 69108 * (17 # 100) / 60 * (a + 16) / 1000)
    = Qlt_bool a b.
Proof.
  apply Qlt_bool_iff_eq.
  assert (E : 69108 * (17 # 100) / 60 * (b + 16) / 1000 - 69108 * (17 # 100) / 60 * (a + 16) / 1000
              == (b - a) / (1000 * 60 / (69108 * (17 # 100)))) by field.
  rewrite E, div_pos_iff by reflexivity. lra.
Qed.

(** Comparing two VoIP analyses whose codecs are in [CODEC_BANDWIDTHS]
    and that have no simulation results, [generateComparisonSummary]
    returns the ratios of the per-call bandwidths ([codec + 16] kbps):
    the efficiency ratio is [(cb1 + 16) / (cb2 + 16)] and the bandwidth
    ratio its inverse, whatever the random splits.  The second analysis
    is called more efficient exactly when its codec is lighter, and more
    bandwidth-hungry exactly when its codec is heavier; a tie names the
    first. *)
Theorem codec_comparison (s1 s2 : Snapshot) (w : World) (rand1 rand2 : nat -> Q) (cb1 cb2 : Q) :
  (forall k, 0 <= rand1 k /\ rand1 k < 1) -> (forall k, 0 <= rand2 k /\ rand2 k < 1) ->
  trafficData s1 = App.calculateTrafficData (snapNetworkType s1) (snapCodec s1) (snapBlockingProb s1) rand1 ->
  trafficData s2 = App.calculateTrafficData (snapNetworkType s2) (snapCodec s2) (snapBlockingProb s2) rand2 ->
  String.eqb (snapNetworkType s1) "pstn" = false -> String.eqb (snapNetworkType s2) "pstn" = false ->
  CODEC_BANDWIDTHS !! snapCodec s1 = Some cb1 -> CODEC_BANDWIDTHS !! snapCodec s2 = Some cb2 ->
  (sTotalCalls (getSimulationData (snapId s1) w) <= 0)%Z ->
  (sTotalCalls (getSimulationData (snapId s2) w) <= 0)%Z ->
  exists cs, generateComparisonSummary s1 s2 w = Some cs /\
    efficiencyRatio (comparisons cs) == (cb1 + 16) / (cb2 + 16) /\
    (exists br, bandwidthRatio (comparisons cs) = Some br /\ br == (cb2 + 16) / (cb1 + 16)) /\
    moreEfficient (comparisons cs) = (if Qlt_bool cb2 cb1 then "second" else "first") /\
    moreBandwidth (comparisons cs) = (if Qlt_bool cb1 cb2 then "second" else "first").
Proof.
  intros Hr1 Hr2 Htd1 Htd2 Hnt1 Hnt2 Hcb1 Hcb2 Hsim1 Hsim2.
  assert (Ha : 0 <= cb1) by exact (map_Forall_lookup_1 _ _ _ _ codec_bandwidths_nonneg Hcb1).
  assert (Hb : 0 <= cb2) by exact (map_Forall_lookup_1 _ _ _ _ codec_bandwidths_nonneg Hcb2).
  destruct (app_summary_voip s1 w rand1 cb1 Hr1 Htd1 Hnt1 Hcb1 Hsim1)
    as (r1 & H1 & _ & He1 & tb1 & Htb1 & Htb1eq).
  destruct (app_summary_voip s2 w rand2 cb2 Hr2 Htd2 Hnt2 Hcb2 Hsim2)
    as (r2 & H2 & _ & He2 & tb2 & Htb2 & Htb2eq).
  unfold generateComparisonSummary. rewrite H1, H2.
  eexists. split; [reflexivity|].
  cbn [comparisons efficiencyRatio bandwidthRatio moreEfficient moreBandwidth].
  rewrite Htb1, Htb2. cbn [js_sub js_gt0 mbind option_bind].
  assert (He1pos : Qlt_bool 0 (sumEfficiencyScore r1) = true).
  { apply Qlt_bool_true. rewrite He1. apply Qlt_shift_div_l; lra. }
  assert (Htb1pos : Qlt_bool 0 tb1 = true).
  { apply Qlt_bool_true. rewrite Htb1eq.
    assert (E : 69108 * (17 # 100) / 60 * (cb1 + 16) / 1000
                == (cb1 + 16) / (1000 * 60 / (69108 * (17 # 100)))) by field.
    rewrite E, div_pos_iff by reflexivity. lra. }
  rewrite He1pos, Htb1pos. split; [|split; [|split]].
  - rewrite He1, He2. field. split; intro E; lra.
  - eexists. split; [reflexivity|]. rewrite Htb1eq, Htb2eq. field. intro E; lra.
  - rewrite (Qlt_bool_wd 0 0 _ (1000 / (cb2 + 16) - 1000 / (cb1 + 16)) (Qeq_refl 0))
      by (rewrite He1, He2; reflexivity).
    rewrite efficiency_order by assumption. reflexivity.
  - rewrite (Qlt_bool_wd 0 0 _ (69108 * (17 # 100) / 60 * (cb2 + 16) / 1000 -
                                 69108 * (17 # 100) / 60 * (cb1 + 16) / 1000) (Qeq_refl 0))
      by (rewrite Htb1eq, Htb2eq; reflexivity).
    rewrite bandwidth_order. reflexivity.
Qed.

Lemma codec_comparison_witness :
  exists cs,
    generateComparisonSummary
      {| snapId := "1760000000000-1"; snapNetworkType := "voip"; snapCodec := "g711";
         snapBlockingProb := 1 # 100;
         trafficData := App.calculateTrafficData "voip" "g711" (1 # 100) (fun _ => 1 # 2) |}
      {| snapId := "1760000000009-2"; snapNetworkType := "voip"; snapCodec := "g729a";
         snapBlockingProb := 1 # 100;
         trafficData := App.calculateTrafficData "voip" "g729a" (1 # 100) (fun _ => 1 # 4) |}
      demo_world = Some cs /\
    efficiencyRatio (comparisons cs) == (64 + 16) / (8 + 16) /\
    (exists br, bandwidthRatio (comparisons cs) = Some br /\ br == (8 + 16) / (64 + 16)) /\
    moreEfficient (comparisons cs) = (if Qlt_bool 8 64 then "second" else "first") /\
    moreBandwidth (comparisons cs) = (if Qlt_bool 64 8 then "second" else "first").
Proof.
  apply (codec_comparison _ _ demo_world (fun _ => 1 # 2) (fun _ => 1 # 4) 64 8);
    try reflexivity.
  - intros _. split; [apply Qlt_le_weak|]; reflexivity.
  - intros _. split; [apply Qlt_le_weak|]; reflexivity.
Defined.

(** ** The Gemini proxy *)

Lemma replace_first_absent (p r s : string) :
  String.index 0 p s = None -> js_replace_first p r s = s.
Proof. intros H. unfold js_replace_first. rewrite H. reflexivity. Qed.

(** The proxy accepts a model name with or without the [models/] prefix
    that the model list returns, and forwards both to the same Gemini
    endpoint: the prefix is stripped once, the rest of the name is kept. *)
Theorem gemini_model_prefix (apiKey model prompt : string) :
  apiKey <> "" -> prompt <> "" -> model <> "" ->
  String.index 0 "models/" model = None ->
  geminiProxy (Some apiKey) (Some (String.append "models/" model)) (Some prompt) =
    ForwardRequest (gemini_url apiKey model) prompt /\
  geminiProxy (Some apiKey) (Some model) (Some prompt) =
    ForwardRequest (gemini_url apiKey model) prompt.
Proof.
  intros Hk Hp Hm Hi. unfold geminiProxy, js_truthy.
  apply String.eqb_neq in Hk, Hp, Hm. rewrite Hk, Hp, Hm. cbn [negb orb].
  split.
  - rewrite replace_first_strip. reflexivity.
  - rewrite replace_first_absent by exact Hi. reflexivity.
Qed.

Lemma gemini_model_prefix_witness :
  geminiProxy (Some "k") (Some (String.append "models/" "gemini-1.5-flash")) (Some "Compare") =
    ForwardRequest (gemini_url "k" "gemini-1.5-flash") "Compare" /\
  geminiProxy (Some "k") (Some "gemini-1.5-flash") (Some "Compare") =
    ForwardRequest (gemini_url "k" "gemini-1.5-flash") "Compare".
Proof.
  apply gemini_model_prefix; try discriminate. reflexivity.
Defined.
